(** * Hotel booking manager: a shallow embedding of [hotel_booking.py]

    The development follows the source file top to bottom: the Python
    library operations the program calls ([int], [str.lower], [in],
    [format], [datetime.strptime], [date] comparison and subtraction), then
    the methods of [HotelBookingSystem], then the theorems.

    Conventions.
    - A Python [str] is a [string]; each character stands for the code
      point of the same number (0..255).
    - A Python [int] is a [Z].
    - [None] is the [None] of [option].
    - A raised exception that no handler of the program catches is the
      [Raise] of [result]; exceptions the program catches itself
      ([ValueError] in [generate_booking_id], [Exception] in [parse_date])
      are turned into the value the handler produces.
    - The instance attributes [self.bookings] and the file written by
      [save_bookings] form the record [System], passed in and out of every
      method that mutates them.  [datetime.now().isoformat()] is an extra
      argument [now].
    - A booking is a record with the keys [create_booking] writes; the
      ledger is the list [load_bookings] returned when the system was
      built.  The interactive shell and [get_available_rooms], which asks
      for today's availability, are left out. *)

From Stdlib Require Import ZArith Bool List Ascii String Lia.
Import ListNotations.

Local Open Scope string_scope.
Local Open Scope list_scope.
Local Open Scope Z_scope.

(** ** Characters *)

Module Char.

Definition code (c : ascii) : Z := Z.of_N (N_of_ascii c).

Definition in_range (lo hi : Z) (c : ascii) : bool :=
  (lo <=? code c) && (code c <=? hi).

(** Decimal digits: the only code points below 256 of category Nd. *)
Definition is_digit (c : ascii) : bool := in_range 48 57 c.

Definition digit_val (c : ascii) : Z := code c - 48.

Definition digit_char (d : Z) : ascii := ascii_of_N (Z.to_N (d + 48)).

(** White space skipped by [int] around a number: TAB, LF, VT, FF, CR,
    space, NEL (0x85) and NBSP (0xa0). *)
Definition is_space (c : ascii) : bool :=
  in_range 9 13 c || (code c =? 32) || (code c =? 133) || (code c =? 160).

(** [str.lower] on one character: A-Z and the Latin-1 capitals 0xc0-0xde
    (except the multiplication sign 0xd7) move up by 32. *)
Definition lower (c : ascii) : ascii :=
  if in_range 65 90 c || (in_range 192 222 c && negb (code c =? 215))
  then ascii_of_N (Z.to_N (code c + 32))
  else c.

End Char.

(** ** Strings *)

Module Str.

(** [s.lower()] *)
Fixpoint lower (s : string) : string :=
  match s with
  | EmptyString => EmptyString
  | String c r => String (Char.lower c) (lower r)
  end.

(** [s.startswith(p)] *)
Definition startswith (s p : string) : bool := String.prefix p s.

(** [s[n:]] *)
Fixpoint slice_from (n : nat) (s : string) : string :=
  match n, s with
  | O, _ => s
  | S _, EmptyString => EmptyString
  | S k, String _ r => slice_from k r
  end.

(** [q in s] for two strings: [q] starts at some position of [s]. *)
Fixpoint contains (s q : string) : bool :=
  String.prefix q s ||
  match s with
  | EmptyString => false
  | String _ r => contains r q
  end.

Fixpoint all_space (s : string) : bool :=
  match s with
  | EmptyString => true
  | String c r => Char.is_space c && all_space r
  end.

Fixpoint lstrip (s : string) : string :=
  match s with
  | EmptyString => EmptyString
  | String c r => if Char.is_space c then lstrip r else s
  end.

Fixpoint repeat0 (n : nat) : string :=
  match n with
  | O => EmptyString
  | S k => String "0" (repeat0 k)
  end.

(** Left padding with zeros up to [width] characters. *)
Definition zfill (width : nat) (s : string) : string :=
  (repeat0 (width - String.length s) ++ s)%string.

End Str.

(** ** [int(text)] and [format(n, "04d")] *)

Module PyInt.

(** The digits of a literal after its first digit.  [after_us] says that
    the previous character was an underscore, which must be followed by a
    digit.  Trailing white space ends the number and must reach the end of
    the text. *)
Fixpoint digits (after_us : bool) (acc : Z) (s : string) : option Z :=
  match s with
  | EmptyString => if after_us then None else Some acc
  | String c r =>
      if Char.is_digit c then digits false (acc * 10 + Char.digit_val c) r
      else if Ascii.eqb c "_" then
        if after_us then None else digits true acc r
      else if Char.is_space c then
        if after_us then None
        else if Str.all_space r then Some acc else None
      else None
  end.

Definition unsigned (s : string) : option Z :=
  match s with
  | EmptyString => None
  | String c r =>
      if Char.is_digit c then digits false (Char.digit_val c) r else None
  end.

(** [int(s)]; [None] stands for the [ValueError] of a malformed literal. *)
Definition int (s : string) : option Z :=
  match Str.lstrip s with
  | String "+" r => unsigned r
  | String "-" r => option_map Z.opp (unsigned r)
  | t => unsigned t
  end.

(** Decimal digits of a non-negative number, most significant first,
    prepended to [acc]. *)
Fixpoint str_digits (fuel : nat) (n : Z) (acc : string) : string :=
  match fuel with
  | O => acc
  | S f =>
      let acc' := String (Char.digit_char (n mod 10)) acc in
      if n / 10 =? 0 then acc' else str_digits f (n / 10) acc'
  end.

(** [str(n)] for [0 <= n]: a number below [2^k] has at most [k] digits. *)
Definition str_nonneg (n : Z) : string :=
  str_digits (S (Z.to_nat (Z.log2 n))) n EmptyString.

(** [f"{n:04d}"]: the sign counts in the width of four. *)
Definition format_04d (n : Z) : string :=
  if n <? 0 then String "-" (Str.zfill 3 (str_nonneg (- n)))
  else Str.zfill 4 (str_nonneg n).

End PyInt.

(** ** Calendar dates ([datetime.date]) *)

Record date : Type := mkdate { year : Z; month : Z; day : Z }.

Module Date.

Definition is_leap (y : Z) : bool :=
  (y mod 4 =? 0) && (negb (y mod 100 =? 0) || (y mod 400 =? 0)).

(** [_DAYS_IN_MONTH] and [_DAYS_BEFORE_MONTH], indexed from 1. *)
Definition DAYS_IN_MONTH : list Z :=
  [-1; 31; 28; 31; 30; 31; 30; 31; 31; 30; 31; 30; 31].

Definition DAYS_BEFORE_MONTH : list Z :=
  [-1; 0; 31; 59; 90; 120; 151; 181; 212; 243; 273; 304; 334].

Definition days_in_month (y m : Z) : Z :=
  if (m =? 2) && is_leap y then 29
  else nth (Z.to_nat m) DAYS_IN_MONTH 0.

Definition days_before_year (y : Z) : Z :=
  let y' := y - 1 in y' * 365 + y' / 4 - y' / 100 + y' / 400.

Definition days_before_month (y m : Z) : Z :=
  nth (Z.to_nat m) DAYS_BEFORE_MONTH 0
  + (if (2 <? m) && is_leap y then 1 else 0).

(** [_check_date_fields]: what the constructor [date(y, m, d)] accepts. *)
Definition check_fields (y m d : Z) : bool :=
  (1 <=? y) && (y <=? 9999) && (1 <=? m) && (m <=? 12)
  && (1 <=? d) && (d <=? days_in_month y m).

(** [d.toordinal()]: day number, 0001-01-01 being day 1. *)
Definition toordinal (d : date) : Z :=
  days_before_year (year d) + days_before_month (year d) (month d) + day d.

(** [a < b]: dates compare as the tuples (year, month, day). *)
Definition ltb (a b : date) : bool :=
  (year a <? year b)
  || ((year a =? year b)
      && ((month a <? month b)
          || ((month a =? month b) && (day a <? day b)))).

Definition lt (a b : date) : Prop := ltb a b = true.

(** [(a - b).days] *)
Definition sub_days (a b : date) : Z := toordinal a - toordinal b.

End Date.

(** ** [datetime.strptime(text, "%Y-%m-%d")]

    The format compiles to the regular expression
    [(?P<Y>\d\d\d\d)-(?P<m>1[0-2]|0[1-9]|[1-9])-(?P<d>3[0-1]|[1-2]\d|0[1-9]|[1-9]| [1-9])]
    matched at the start of the text; text left over after the match is an
    error, and so is a triple that is no calendar date. *)

Module Strptime.

(** One alternative of a group: the text it matched and the text left. *)
Definition alt : Type := string -> option (string * string).

Definition two (p1 p2 : ascii -> bool) : alt := fun s =>
  match s with
  | String a (String b r) =>
      if p1 a && p2 b then Some (String a (String b EmptyString), r) else None
  | _ => None
  end.

Definition one (p : ascii -> bool) : alt := fun s =>
  match s with
  | String a r => if p a then Some (String a EmptyString, r) else None
  | _ => None
  end.

Definition chr (c : ascii) : ascii -> bool := Ascii.eqb c.

(** [1[0-2]|0[1-9]|[1-9]] *)
Definition group_m : list alt :=
  [ two (chr "1") (Char.in_range 48 50);
    two (chr "0") (Char.in_range 49 57);
    one (Char.in_range 49 57) ].

(** [3[0-1]|[1-2]\d|0[1-9]|[1-9]| [1-9]] *)
Definition group_d : list alt :=
  [ two (chr "3") (Char.in_range 48 49);
    two (Char.in_range 49 50) Char.is_digit;
    two (chr "0") (Char.in_range 49 57);
    one (Char.in_range 49 57);
    two (chr " ") (Char.in_range 49 57) ].

(** [\d\d\d\d] *)
Definition group_Y : alt := fun s =>
  match s with
  | String a (String b (String c (String d r))) =>
      if Char.is_digit a && Char.is_digit b && Char.is_digit c
         && Char.is_digit d
      then Some (String a (String b (String c (String d EmptyString))), r)
      else None
  | _ => None
  end.

Definition literal (c : ascii) (s : string) : option string :=
  match s with
  | String a r => if Ascii.eqb a c then Some r else None
  | EmptyString => None
  end.

(** Alternatives are tried in order; the first whose continuation [k]
    succeeds wins (backtracking). *)
Fixpoint first_match {A} (alts : list alt) (s : string)
    (k : string -> string -> option A) : option A :=
  match alts with
  | [] => None
  | a :: rest =>
      match
        match a s with
        | Some (txt, r) => k txt r
        | None => None
        end
      with
      | Some x => Some x
      | None => first_match rest s k
      end
  end.

(** The match of the whole expression: the three groups and the text
    that remains after the match. *)
Definition regex (s : string) : option (string * string * string * string) :=
  match group_Y s with
  | None => None
  | Some (ty, r1) =>
      match literal "-" r1 with
      | None => None
      | Some r2 =>
          first_match group_m r2 (fun tm r3 =>
            match literal "-" r3 with
            | None => None
            | Some r4 =>
                first_match group_d r4 (fun td r5 => Some (ty, tm, td, r5))
            end)
      end
  end.

(** [None] stands for the [ValueError] of [strptime]. *)
Definition strptime (s : string) : option date :=
  match regex s with
  | None => None                                (* does not match format *)
  | Some (ty, tm, td, rest) =>
      match rest with
      | String _ _ => None                      (* unconverted data remains *)
      | EmptyString =>
          match PyInt.int ty, PyInt.int tm, PyInt.int td with
          | Some y, Some m, Some d =>
              if Date.check_fields y m d then Some (mkdate y m d)
              else None                         (* out of range *)
          | _, _, _ => None
          end
      end
  end.

End Strptime.

(** ** Outcomes of a call *)

Inductive exn : Type := TypeError.

Inductive result (A : Type) : Type :=
| Ok (a : A)
| Raise (e : exn).

Arguments Ok {A} a.
Arguments Raise {A} e.

Definition bind {A B} (r : result A) (k : A -> result B) : result B :=
  match r with
  | Ok a => k a
  | Raise e => Raise e
  end.

Notation "x <- r ;; k" := (bind r (fun x => k))
  (at level 100, r at next level, right associativity).

(** ** The data of [HotelBookingSystem] *)

Record RoomInfo : Type := mkRoom { price : Z; total : Z }.

(** A booking: the dictionary built by [create_booking]; the key
    [cancelled_at] is absent until [cancel_booking] adds it. *)
Record Booking : Type := mkBooking {
  booking_id : string;
  guest_name : string;
  email : string;
  phone : string;
  room_type : string;
  check_in : string;
  check_out : string;
  guests : Z;
  nights : Z;
  total_price : Z;
  status : string;
  created_at : string;
  cancelled_at : option string
}.

(** [self.bookings], and the successive contents [save_bookings] wrote to
    the file, the latest first. *)
Record System : Type := mkSystem {
  bookings : list Booking;
  file : list (list Booking)
}.

(** [d[k]] and [k in d] on a dictionary given by its items. *)
Fixpoint dict_get {A} (d : list (string * A)) (k : string) : option A :=
  match d with
  | [] => None
  | (k', v) :: rest => if String.eqb k' k then Some v else dict_get rest k
  end.

Definition dict_mem {A} (d : list (string * A)) (k : string) : bool :=
  match dict_get d k with
  | Some _ => true
  | None => false
  end.

(** [self.rooms] *)
Definition rooms : list (string * RoomInfo) :=
  [ ("single", mkRoom 2000 10);
    ("double", mkRoom 2500 8);
    ("suite", mkRoom 3000 5) ].

(** ** Persistence *)

Definition save_bookings (s : System) : System :=
  mkSystem (bookings s) (bookings s :: file s).

(** ** Helpers *)

Fixpoint max_suffix (bs : list Booking) (max_n : Z) : Z :=
  match bs with
  | [] => max_n
  | b :: rest =>
      let bid := booking_id b in
      if Str.startswith bid "BK" then
        match PyInt.int (Str.slice_from 2 bid) with
        | Some n => max_suffix rest (if n >? max_n then n else max_n)
        | None => max_suffix rest max_n
        end
      else max_suffix rest max_n
  end.

Definition generate_booking_id (s : System) : string :=
  ("BK" ++ PyInt.format_04d (max_suffix (bookings s) 0 + 1))%string.

Definition parse_date (date_str : string) : option date :=
  match Strptime.strptime date_str with
  | Some d => Some d
  | None => None
  end.

Definition calculate_nights (check_in check_out : string) : option Z :=
  let date_in := parse_date check_in in
  let date_out := parse_date check_out in
  match date_in, date_out with
  | Some d_in, Some d_out => Some (Date.sub_days d_out d_in)
  | _, _ => None
  end.

(** [a < b] between two values that are a date or [None]: ordering
    against [None] is a [TypeError]. *)
Definition py_lt (a b : option date) : result bool :=
  match a, b with
  | Some x, Some y => Ok (Date.ltb x y)
  | _, _ => Raise TypeError
  end.

(** [(start1 < end2) and (start2 < end1)]: [and] evaluates its second
    operand only when the first is true. *)
Definition dates_overlap (start1 end1 start2 end2 : option date)
    : result bool :=
  c <- py_lt start1 end2 ;;
  if c then py_lt start2 end1 else Ok false.

(** ** Availability *)

Fixpoint count_loop (room : string) (date_in date_out : date)
    (bs : list Booking) (count : Z) : result Z :=
  match bs with
  | [] => Ok count
  | b :: rest =>
      if negb (String.eqb (room_type b) room) then
        count_loop room date_in date_out rest count
      else if negb (String.eqb (status b) "confirmed") then
        count_loop room date_in date_out rest count
      else
        let b_in := parse_date (check_in b) in
        let b_out := parse_date (check_out b) in
        ov <- dates_overlap (Some date_in) (Some date_out) b_in b_out ;;
        count_loop room date_in date_out rest
          (if ov then count + 1 else count)
  end.

Definition booked_count_for_range (s : System)
    (room check_in check_out : string) : result (option Z) :=
  let date_in := parse_date check_in in
  let date_out := parse_date check_out in
  match date_in, date_out with
  | Some d_in, Some d_out =>
      count <- count_loop room d_in d_out (bookings s) 0 ;;
      Ok (Some count)
  | _, _ => Ok None
  end.

Definition available_rooms_for_range (s : System)
    (room check_in check_out : string) : result (option Z) :=
  match dict_get rooms room with
  | None => Ok None
  | Some info =>
      booked <- booked_count_for_range s room check_in check_out ;;
      match booked with
      | None => Ok None
      | Some n => Ok (Some (Z.max 0 (total info - n)))
      end
  end.

(** ** Create, read, cancel, search *)

Definition create_booking (now : string) (s : System)
    (guest_name email phone room check_in check_out : string) (guests : Z)
    : System * result (option Booking * string) :=
  match dict_get rooms room with
  | None => (s, Ok (None, "Invalid room type"))
  | Some info =>
      match calculate_nights check_in check_out with
      | None => (s, Ok (None, "Invalid date format. Use YYYY-MM-DD"))
      | Some nights =>
          if nights <=? 0 then
            (s, Ok (None, "Check-out must be after check-in"))
          else
            match available_rooms_for_range s room check_in check_out with
            | Raise e => (s, Raise e)
            | Ok None => (s, Ok (None, "Error calculating availability"))
            | Ok (Some available) =>
                if available <=? 0 then
                  (s, Ok (None, ("No " ++ room
                                ++ " rooms available for those dates")%string))
                else
                  let total_price := price info * nights in
                  let booking :=
                    mkBooking (generate_booking_id s) guest_name email phone
                      room check_in check_out guests nights total_price
                      "confirmed" now None in
                  let s' := mkSystem (bookings s ++ [booking]) (file s) in
                  (save_bookings s', Ok (Some booking,
                                         "Booking created successfully"))
            end
      end
  end.

Fixpoint find_booking (bs : list Booking) (id : string) : option Booking :=
  match bs with
  | [] => None
  | booking :: rest =>
      if String.eqb (booking_id booking) id then Some booking
      else find_booking rest id
  end.

Definition get_booking (s : System) (id : string) : option Booking :=
  find_booking (bookings s) id.

Definition get_all_bookings (s : System) : list Booking := bookings s.

(** The two assignments of [cancel_booking] to the booking found. *)
Definition mark_cancelled (now : string) (b : Booking) : Booking :=
  mkBooking (booking_id b) (guest_name b) (email b) (phone b) (room_type b)
    (check_in b) (check_out b) (guests b) (nights b) (total_price b)
    "cancelled" b.(created_at) (Some now).

(** The loop of [cancel_booking] over the ledger: the ledger after the
    loop, the booking returned, and whether it was modified (and so has
    to be saved).  The booking is modified in place, so the one returned
    is the one in the ledger. *)
Fixpoint cancel_loop (now id : string) (bs : list Booking)
    : list Booking * option (Booking * bool) :=
  match bs with
  | [] => ([], None)
  | booking :: rest =>
      if String.eqb (booking_id booking) id then
        if String.eqb (status booking) "cancelled" then
          (booking :: rest, Some (booking, false))
        else
          let booking' := mark_cancelled now booking in
          (booking' :: rest, Some (booking', true))
      else
        let (rest', r) := cancel_loop now id rest in
        (booking :: rest', r)
  end.

Definition cancel_booking (now : string) (s : System) (id : string)
    : System * option Booking :=
  match cancel_loop now id (bookings s) with
  | (bs', Some (b, true)) => (save_bookings (mkSystem bs' (file s)), Some b)
  | (_, Some (b, false)) => (s, Some b)
  | (_, None) => (s, None)
  end.

Definition matches_query (query_lower : string) (booking : Booking) : bool :=
  Str.contains (Str.lower (guest_name booking)) query_lower
  || Str.contains (Str.lower (email booking)) query_lower
  || Str.contains (Str.lower (booking_id booking)) query_lower.

Fixpoint search_loop (query_lower : string) (bs results : list Booking)
    : list Booking :=
  match bs with
  | [] => results
  | booking :: rest =>
      if matches_query query_lower booking then
        search_loop query_lower rest (results ++ [booking])
      else search_loop query_lower rest results
  end.

Definition search_bookings (s : System) (query : string) : list Booking :=
  let query_lower := Str.lower query in
  search_loop query_lower (bookings s) [].

(** * Vocabulary of the specification *)

(** The numbers the loop looks at: those that [int] reads after the
    prefix of some booking id of the ledger. *)
Definition suffix_number (bs : list Booking) (n : Z) : Prop :=
  exists b t, In b bs /\ booking_id b = ("BK" ++ t)%string
              /\ PyInt.int t = Some n.


(** The record [create_booking] builds on its accepted path. *)
Definition new_booking (now : string) (s : System)
    (guest_name email phone room check_in check_out : string) (guests : Z)
    (info : RoomInfo) (nights : Z) : Booking :=
  mkBooking (generate_booking_id s) guest_name email phone room check_in
    check_out guests nights (price info * nights) "confirmed" now None.

(** The state after an accepted [create_booking]. *)
Definition appended (s : System) (b : Booking) : System :=
  save_bookings (mkSystem (bookings s ++ [b]) (file s)).

(** ** Date literals *)

Definition all_digits : list ascii :=
  ["0"; "1"; "2"; "3"; "4"; "5"; "6"; "7"; "8"; "9"]%char.

Definition digit (n : Z) : string := String (Char.digit_char n) EmptyString.

Definition two_digits (n : Z) : string :=
  (digit (n / 10) ++ digit (n mod 10))%string.

Definition four_digits (n : Z) : string :=
  (digit (n / 1000) ++ digit (n / 100 mod 10) ++ digit (n / 10 mod 10)
   ++ digit (n mod 10))%string.

(** A real calendar date of the years 1 to 9999. *)
Definition real_date (d : date) : Prop :=
  Date.check_fields (year d) (month d) (day d) = true.

(** The strict literal YYYY-MM-DD of a date. *)
Definition iso_text (d : date) : string :=
  (four_digits (year d) ++ "-" ++ two_digits (month d) ++ "-"
   ++ two_digits (day d))%string.


(** The ways [strptime] lets a month and a day be written: two digits,
    or a single digit for the numbers below ten, which a day may also
    write after a space. *)
Definition month_texts (m : Z) : list string :=
  two_digits m :: (if m <? 10 then [digit m] else []).

Definition day_texts (d : Z) : list string :=
  two_digits d :: (if d <? 10 then [digit d; String " " (digit d)] else []).

Definition spelling (d : date) (s : string) : Prop :=
  exists tm td,
    In tm (month_texts (month d)) /\ In td (day_texts (day d))
    /\ s = (four_digits (year d) ++ "-" ++ tm ++ "-" ++ td)%string.

(** The integers [lo], [lo + 1], ..., [lo + n - 1]. *)
Definition zrange (lo : Z) (n : nat) : list Z :=
  map (fun i => lo + Z.of_nat i) (seq 0 n).

(** ** Ledgers *)

(** A booking of the data model stores two calendar dates: the texts of
    [check_in] and [check_out] parse. *)
Definition stored_dates (b : Booking) : Prop :=
  parse_date (check_in b) <> None /\ parse_date (check_out b) <> None.

Definition well_formed (bs : list Booking) : Prop := Forall stored_dates bs.

(** What [booked_count_for_range] relies on: the bookings it compares
    with the query, the confirmed ones of the room type, store dates. *)
Definition dated (room : string) (bs : list Booking) : Prop :=
  forall b, In b bs -> room_type b = room -> status b = "confirmed" ->
            stored_dates b.

(** Half-open intervals [[startA, endA)] and [[startB, endB)] overlap. *)
Definition overlaps (startA endA startB endB : date) : bool :=
  Date.ltb startA endB && Date.ltb startB endA.

(** The bookings the specification counts for a query: of the room type,
    confirmed, and with a stay that overlaps the query interval. *)
Definition counted (room : string) (q_in q_out : date) (b : Booking) : bool :=
  String.eqb (room_type b) room
  && String.eqb (status b) "confirmed"
  && match parse_date (check_in b), parse_date (check_out b) with
     | Some b_in, Some b_out => overlaps b_in b_out q_in q_out
     | _, _ => false
     end.


(** ** The full-house scenario *)

(** A confirmed single-room booking from 2024-02-01 to 2024-02-05. *)
Definition covers_feb (b : Booking) : Prop :=
  room_type b = "single" /\ status b = "confirmed"
  /\ check_in b = "2024-02-01" /\ check_out b = "2024-02-05".

(** ** Searching *)

(** [q] occurs in [s]. *)
Definition substring (q s : string) : Prop :=
  exists pre post, s = (pre ++ q ++ post)%string.


(** ** Sample data *)

Definition empty_system : System := mkSystem [] [].

Definition sample_booking (id name mail room ci co st : string) : Booking :=
  mkBooking id name mail "555-0100" room ci co 1 0 0 st
    "2024-01-01T09:00:00" None.

(** A ledger with a well-formed id, a cancelled booking, ids whose suffix
    [int] rejects, an id with another prefix and a suffix written with
    white space. *)
Definition sample_ledger : list Booking :=
  [ sample_booking "BK0007" "ALICE SMITH" "alice@example.com" "single"
      "2024-02-01" "2024-02-05" "confirmed";
    sample_booking "BK0003" "Bob Stone" "bob@example.com" "single"
      "2024-02-02" "2024-02-04" "cancelled";
    sample_booking "BKxyz" "Carol" "carol@example.com" "double"
      "2024-02-01" "2024-02-03" "confirmed";
    sample_booking "RM0100" "Dave" "dave@example.com" "suite"
      "2024-03-01" "2024-03-02" "confirmed";
    sample_booking "BK 5 " "Eve" "eve@example.com" "single"
      "2024-02-04" "2024-02-08" "confirmed" ].

Definition sample_system : System := mkSystem sample_ledger [].

(** The ledger after [k] requests for a single room from 2024-02-01 to
    2024-02-05, starting from [s]. *)
Fixpoint create_many (k : nat) (s : System) : System :=
  match k with
  | O => s
  | S k' =>
      fst (create_booking "2024-01-15T12:00:00" (create_many k' s) "Guest"
             "guest@example.com" "555-0100" "single" "2024-02-01"
             "2024-02-05" 1)
  end.

Definition full_house : System := create_many 10 empty_system.


(** * Further vocabulary: nights, occupancy and reachable ledgers *)

(** Day [D] lies in the half-open interval [[a, b)]. *)
Definition within (D a b : date) : bool :=
  negb (Date.ltb D a) && Date.ltb D b.

(** Booking [b] occupies a room of type [room] on the night of day [D]:
    it is of that type, confirmed, and [D] lies in its stay. *)
Definition occupies (room : string) (D : date) (b : Booking) : bool :=
  String.eqb (room_type b) room
  && String.eqb (status b) "confirmed"
  && match parse_date (check_in b), parse_date (check_out b) with
     | Some b_in, Some b_out => within D b_in b_out
     | _, _ => false
     end.

Definition occupancy (room : string) (D : date) (bs : list Booking) : Z :=
  Z.of_nat (List.length (filter (occupies room D) bs)).

(** No room type is sold beyond its number of rooms on any night. *)
Definition never_oversold (bs : list Booking) : Prop :=
  forall room info D,
    dict_get rooms room = Some info -> occupancy room D bs <= total info.

(** The states the program can be in when it starts without a file: the
    empty ledger, and what [create_booking] and [cancel_booking] make of
    a state it can be in. *)
Inductive reachable : System -> Prop :=
| reach_start : reachable empty_system
| reach_create now s g e p room ci co n :
    reachable s ->
    reachable (fst (create_booking now s g e p room ci co n))
| reach_cancel now s id :
    reachable s -> reachable (fst (cancel_booking now s id)).

(** The id of the [k]-th booking made. *)
Definition nth_id (k : nat) : string :=
  ("BK" ++ PyInt.format_04d (Z.of_nat k))%string.

(** What the fields of a booking made by the program say: the room type
    is one of the table, the two dates parse and the stay ends after it
    starts, [nights] is the number of days between them, [total_price] is
    that many times the price of the room type, and the status is
    confirmed with no [cancelled_at], or cancelled with one. *)
Definition booking_ok (b : Booking) : Prop :=
  exists info d_in d_out,
    dict_get rooms (room_type b) = Some info
    /\ parse_date (check_in b) = Some d_in
    /\ parse_date (check_out b) = Some d_out
    /\ Date.lt d_in d_out
    /\ nights b = Date.toordinal d_out - Date.toordinal d_in
    /\ 0 < nights b
    /\ total_price b = price info * nights b
    /\ ((status b = "confirmed" /\ cancelled_at b = None)
        \/ (status b = "cancelled" /\ cancelled_at b <> None)).

(** A request the sample ledger accepts, and the record it makes. *)
Definition sample_new : Booking :=
  new_booking "2024-01-01T10:00:00" sample_system "Ann" "ann@example.com"
    "555-0101" "double" "2024-03-01" "2024-03-05" 2 (mkRoom 2500 8) 4.

(** * [get_available_rooms]

    The method reads the clock twice, builds the texts of today and of
    the day after with [date + timedelta(days=1)] and [isoformat], and
    asks for the availability of every room type. *)

Module Ordinal.

Definition MAXORDINAL : Z := 3652059.
Definition DI400Y : Z := Date.days_before_year 401.
Definition DI100Y : Z := Date.days_before_year 101.
Definition DI4Y : Z := Date.days_before_year 5.

(** The end of [_ord2ymd]: month and day from the offset [n] of the day
    in its year. *)
Definition month_and_day (leapyear : bool) (n : Z) : Z * Z :=
  let month := Z.shiftr (n + 50) 5 in
  let preceding :=
    nth (Z.to_nat month) Date.DAYS_BEFORE_MONTH 0
    + (if (2 <? month) && leapyear then 1 else 0) in
  if preceding >? n then
    let month := month - 1 in
    let preceding :=
      preceding
      - (nth (Z.to_nat month) Date.DAYS_IN_MONTH 0
         + (if (month =? 2) && leapyear then 1 else 0)) in
    (month, n - preceding + 1)
  else (month, n - preceding + 1).

(** [_ord2ymd(n)] *)
Definition ord2ymd (n : Z) : date :=
  let n := n - 1 in
  let n400 := n / DI400Y in
  let n := n mod DI400Y in
  let year := n400 * 400 + 1 in
  let n100 := n / DI100Y in
  let n := n mod DI100Y in
  let n4 := n / DI4Y in
  let n := n mod DI4Y in
  let n1 := n / 365 in
  let n := n mod 365 in
  let year := year + (n100 * 100 + n4 * 4 + n1) in
  if (n1 =? 4) || (n100 =? 4) then mkdate (year - 1) 12 31
  else
    let leapyear := (n1 =? 3) && (negb (n4 =? 24) || (n100 =? 3)) in
    let (month, day) := month_and_day leapyear n in
    mkdate year month day.

(** [d + timedelta(days=k)]; [None] stands for the [OverflowError]. *)
Definition add_days (d : date) (k : Z) : option date :=
  let o := Date.toordinal d + k in
  if (0 <? o) && (o <=? MAXORDINAL) then Some (ord2ymd o) else None.

(** ["%0wd" % n] for [0 <= n]. *)
Definition pad (w : nat) (n : Z) : string := Str.zfill w (PyInt.str_nonneg n).

(** [d.isoformat()] *)
Definition isoformat (d : date) : string :=
  (pad 4 (year d) ++ "-" ++ pad 2 (month d) ++ "-" ++ pad 2 (day d))%string.

End Ordinal.

(** What [get_available_rooms] ends with: the dictionary it returns, an
    [OverflowError] from the date of the day after, or an exception of
    [available_rooms_for_range]. *)
Inductive rooms_outcome : Type :=
| Availability (d : list (string * option Z))
| Overflow
| Failed (e : exn).

(** The loop over the room types, filling the dictionary in their
    order. *)
Fixpoint availability_loop (s : System) (today tomorrow : string)
    (keys : list string) (availability : list (string * option Z))
    : rooms_outcome :=
  match keys with
  | [] => Availability availability
  | room :: rest =>
      match available_rooms_for_range s room today tomorrow with
      | Raise e => Failed e
      | Ok a => availability_loop s today tomorrow rest
                  (availability ++ [(room, a)])
      end
  end.

(** [now1] and [now2] are the dates of the two readings of the clock. *)
Definition get_available_rooms (now1 now2 : date) (s : System)
    : rooms_outcome :=
  let today := Ordinal.isoformat now1 in
  match Ordinal.add_days now2 1 with
  | None => Overflow
  | Some d =>
      let tomorrow := Ordinal.isoformat d in
      availability_loop s today tomorrow (map fst rooms) []
  end.

(** The checks of the offsets of one year, for the proof by cases. *)
Definition month_and_day_ok (leapyear : bool) (n : Z) : bool :=
  let y := if leapyear then 4 else 1 in
  let (m, d) := Ordinal.month_and_day leapyear n in
  (1 <=? m) && (m <=? 12) && (1 <=? d) && (d <=? Date.days_in_month y m)
  && (Date.days_before_month y m + d =? n + 1).

Fixpoint all_digit (s : string) : bool :=
  match s with
  | EmptyString => true
  | String c r => Char.is_digit c && all_digit r
  end.

Definition pad2_ok (n : Z) : bool :=
  String.eqb (Ordinal.pad 2 n) (two_digits n).
(** * Theorems *)

(** ** Characters and numerals *)

Lemma digit_is_not_sign_or_space (c : ascii) :
  Char.is_digit c = true ->
  Char.is_space c = false /\ Ascii.eqb c "_" = false
  /\ (forall r, PyInt.int (String c r) = PyInt.unsigned (String c r)).
Proof.
  destruct c as [[] [] [] [] [] [] [] []]; intro H;
    try discriminate H; repeat split.
Qed.

Lemma digit_char_spec (d : Z) :
  0 <= d < 10 ->
  Char.is_digit (Char.digit_char d) = true
  /\ Char.digit_val (Char.digit_char d) = d.
Proof.
  intros H.
  assert (E : d = 0 \/ d = 1 \/ d = 2 \/ d = 3 \/ d = 4 \/ d = 5 \/ d = 6
              \/ d = 7 \/ d = 8 \/ d = 9) by lia.
  repeat (destruct E as [-> | E]; [split; reflexivity |]).
  subst d; split; reflexivity.
Qed.

(** Reading a digit extends the accumulator by one decimal place. *)
Lemma digits_step (c : ascii) (r : string) (a : Z) :
  Char.is_digit c = true ->
  PyInt.digits false a (String c r)
  = PyInt.digits false (a * 10 + Char.digit_val c) r.
Proof. intros H; simpl; rewrite H; reflexivity. Qed.

(** The numeral written by [str_digits] reads back as the number, shifted
    past whatever was read before it. *)
Lemma digits_str_digits (fuel : nat) :
  forall (n : Z) (acc : string),
    0 <= n < 10 ^ Z.of_nat fuel ->
    exists k : Z, 0 <= k /\ forall a : Z,
      PyInt.digits false a (PyInt.str_digits fuel n acc)
      = PyInt.digits false (a * 10 ^ k + n) acc.
Proof.
  induction fuel as [| f IH]; intros n acc Hn.
  - exists 0; split; [lia |]; intros a; simpl in *.
    replace n with 0 by lia. f_equal; lia.
  - assert (Hm : 0 <= n mod 10 < 10) by (apply Z.mod_pos_bound; lia).
    destruct (digit_char_spec _ Hm) as [Hd Hv].
    cbn [PyInt.str_digits].
    destruct (n / 10 =? 0) eqn:E.
    + apply Z.eqb_eq in E. exists 1; split; [lia |]; intros a.
      rewrite digits_step by exact Hd. rewrite Hv. f_equal.
      pose proof (Z.div_mod n 10 ltac:(lia)). lia.
    + apply Z.eqb_neq in E.
      assert (Hq : 0 <= n / 10 < 10 ^ Z.of_nat f).
      { split; [apply Z.div_pos; lia |].
        apply Z.div_lt_upper_bound; [lia |].
        replace (Z.of_nat (S f)) with (Z.of_nat f + 1) in Hn by lia.
        rewrite Z.pow_add_r in Hn by lia. lia. }
      destruct (IH (n / 10) (String (Char.digit_char (n mod 10)) acc) Hq)
        as (k & Hk & IHk).
      exists (k + 1); split; [lia |]; intros a.
      rewrite IHk, digits_step by exact Hd. rewrite Hv. f_equal.
      rewrite Z.pow_add_r by lia.
      pose proof (Z.div_mod n 10 ltac:(lia)). lia.
Qed.

Lemma str_digits_head (fuel : nat) :
  forall (n : Z) (acc : string),
    exists c r, PyInt.str_digits (S fuel) n acc = String c r
                /\ Char.is_digit c = true.
Proof.
  induction fuel as [| f IH]; intros n acc;
    assert (Hm : 0 <= n mod 10 < 10) by (apply Z.mod_pos_bound; lia);
    destruct (digit_char_spec _ Hm) as [Hd _].
  - cbn. destruct (n / 10 =? 0); eauto.
  - cbn [PyInt.str_digits]. destruct (n / 10 =? 0); [eauto |].
    apply IH.
Qed.

Lemma log2_fuel (n : Z) :
  0 <= n -> n < 10 ^ Z.of_nat (S (Z.to_nat (Z.log2 n))).
Proof.
  intros H.
  destruct (Z.eq_dec n 0) as [-> | Hz]; [reflexivity |].
  pose proof (Z.log2_nonneg n) as Hl.
  replace (Z.of_nat (S (Z.to_nat (Z.log2 n)))) with (Z.succ (Z.log2 n))
    by lia.
  destruct (Z.log2_spec n ltac:(lia)) as [_ Hu].
  eapply Z.lt_le_trans; [exact Hu |].
  apply Z.pow_le_mono_l; lia.
Qed.

Lemma digits_repeat0 (k : nat) (s : string) :
  PyInt.digits false 0 (Str.repeat0 k ++ s) = PyInt.digits false 0 s.
Proof.
  induction k as [| k IH]; [reflexivity |].
  cbn [Str.repeat0 String.append].
  rewrite digits_step by reflexivity. exact IH.
Qed.

Lemma unsigned_digits (s : string) (c : ascii) (r : string) :
  s = String c r -> Char.is_digit c = true ->
  PyInt.unsigned s = PyInt.digits false 0 s.
Proof.
  intros -> H. rewrite digits_step by exact H.
  simpl. rewrite H. reflexivity.
Qed.

Lemma zfill_head (w : nat) (s : string) (c : ascii) (r : string) :
  s = String c r -> Char.is_digit c = true ->
  exists c' r', Str.zfill w s = String c' r' /\ Char.is_digit c' = true.
Proof.
  intros -> H. unfold Str.zfill.
  destruct (w - String.length (String c r))%nat; cbn; eauto.
Qed.

(** [int] reads back what [format] writes. *)
Lemma int_format_04d (n : Z) :
  0 <= n -> PyInt.int (PyInt.format_04d n) = Some n.
Proof.
  intros H. unfold PyInt.format_04d.
  destruct (n <? 0) eqn:E; [apply Z.ltb_lt in E; lia |].
  unfold PyInt.str_nonneg.
  destruct (str_digits_head (Z.to_nat (Z.log2 n)) n EmptyString)
    as (c & r & Hs & Hc).
  destruct (zfill_head 4 _ c r Hs Hc) as (c' & r' & Hz & Hc').
  rewrite Hz.
  destruct (digit_is_not_sign_or_space c' Hc') as (_ & _ & Hi).
  rewrite Hi, (unsigned_digits _ c' r' eq_refl Hc'), <- Hz.
  unfold Str.zfill. rewrite digits_repeat0.
  destruct (digits_str_digits _ n EmptyString (conj H (log2_fuel n H)))
    as (k & _ & Hk).
  rewrite Hk. reflexivity.
Qed.

Lemma str_digits_length (fuel : nat) :
  forall (n : Z) (acc : string) (k : nat),
    0 <= n < 10 ^ Z.of_nat k -> (1 <= k)%nat ->
    (String.length (PyInt.str_digits fuel n acc)
     <= k + String.length acc)%nat.
Proof.
  induction fuel as [| f IH]; intros n acc k Hn Hk; [cbn; lia |].
  cbn [PyInt.str_digits].
  destruct (n / 10 =? 0) eqn:E; [cbn; lia |].
  apply Z.eqb_neq in E.
  destruct k as [| [| k]]; [lia | |].
  - exfalso. apply E. apply Z.div_small. simpl in Hn. lia.
  - assert (Hq : 0 <= n / 10 < 10 ^ Z.of_nat (S k)).
    { split; [apply Z.div_pos; lia |].
      apply Z.div_lt_upper_bound; [lia |].
      replace (Z.of_nat (S (S k))) with (Z.of_nat (S k) + 1) in Hn by lia.
      rewrite Z.pow_add_r in Hn by lia. lia. }
    specialize (IH (n / 10) (String (Char.digit_char (n mod 10)) acc)
                  (S k) Hq ltac:(lia)).
    cbn [String.length] in IH. lia.
Qed.

Lemma append_length (a b : string) :
  String.length (a ++ b) = (String.length a + String.length b)%nat.
Proof. induction a as [| c a IH]; cbn; [reflexivity | now rewrite IH]. Qed.

Lemma repeat0_length (k : nat) : String.length (Str.repeat0 k) = k.
Proof. induction k as [| k IH]; cbn; [reflexivity | now rewrite IH]. Qed.

Lemma format_04d_length (n : Z) :
  0 <= n ->
  (4 <= String.length (PyInt.format_04d n))%nat
  /\ (n <= 9999 -> String.length (PyInt.format_04d n) = 4%nat).
Proof.
  intros H. unfold PyInt.format_04d.
  destruct (n <? 0) eqn:E; [apply Z.ltb_lt in E; lia |].
  unfold Str.zfill. rewrite append_length, repeat0_length.
  split; [lia |]. intros Hle.
  pose proof (str_digits_length (S (Z.to_nat (Z.log2 n))) n EmptyString 4
                ltac:(simpl; lia) ltac:(lia)) as Hl.
  fold (PyInt.str_nonneg n) in Hl. cbn [String.length] in Hl. lia.
Qed.

(** ** Prefixes and slices *)

Lemma prefix_iff (p s : string) :
  String.prefix p s = true <-> exists r, s = (p ++ r)%string.
Proof.
  revert s; induction p as [| a p IH]; intros s.
  - destruct s; cbn; split; eauto.
  - destruct s as [| b s]; cbn.
    + split; [discriminate | intros [r Hr]; discriminate].
    + destruct (ascii_dec a b) as [-> | Hab].
      * rewrite IH. split; intros [r Hr]; exists r; congruence.
      * split; [discriminate | intros [r Hr]; congruence].
Qed.

Lemma slice_from_app (p r : string) :
  Str.slice_from (String.length p) (p ++ r) = r.
Proof. induction p as [| a p IH]; [destruct r |]; cbn; auto. Qed.


(** ** The loop of [generate_booking_id] *)

Lemma max_suffix_app (bs bs' : list Booking) (m : Z) :
  max_suffix (bs ++ bs') m = max_suffix bs' (max_suffix bs m).
Proof.
  revert m; induction bs as [| b bs IH]; intros m; [reflexivity |].
  cbn [max_suffix app]. destruct (Str.startswith (booking_id b) "BK"); [| apply IH].
  destruct (PyInt.int _); apply IH.
Qed.

Lemma max_suffix_ge (bs : list Booking) :
  forall m, m <= max_suffix bs m.
Proof.
  induction bs as [| b bs IH]; intros m; cbn [max_suffix]; [lia |].
  destruct (Str.startswith (booking_id b) "BK"); [| apply IH].
  destruct (PyInt.int _) as [n |]; [| apply IH].
  destruct (n >? m) eqn:E; [| apply IH].
  specialize (IH n). lia.
Qed.

Lemma max_suffix_upper (bs : list Booking) :
  forall m n, suffix_number bs n -> n <= max_suffix bs m.
Proof.
  induction bs as [| b bs IH]; intros m n (b0 & t & Hin & Hid & Hint).
  - destruct Hin.
  - assert (Hrest : forall m', suffix_number bs n -> n <= max_suffix bs m')
      by (intros; now apply IH).
    cbn [max_suffix]. destruct Hin as [<- | Hin].
    + assert (Hs : Str.startswith (booking_id b) "BK" = true)
        by (apply prefix_iff; eauto).
      rewrite Hs, Hid.
      change (Str.slice_from 2 ("BK" ++ t)%string) with t. rewrite Hint.
      destruct (n >? m) eqn:E.
      * apply max_suffix_ge.
      * pose proof (max_suffix_ge bs m). lia.
    + assert (Hn : suffix_number bs n) by (exists b0, t; auto).
      destruct (Str.startswith (booking_id b) "BK"); [| now apply Hrest].
      destruct (PyInt.int (Str.slice_from 2 (booking_id b)));
        now apply Hrest.
Qed.


(** ** Digits *)

Lemma is_digit_cases (c : ascii) :
  Char.is_digit c = true -> In c all_digits.
Proof.
  destruct c as [[] [] [] [] [] [] [] []]; intro H;
    try discriminate H; cbn; tauto.
Qed.

Lemma in_range_digit (lo hi : Z) (c : ascii) :
  48 <= lo -> hi <= 57 -> Char.in_range lo hi c = true ->
  Char.is_digit c = true.
Proof.
  unfold Char.is_digit, Char.in_range. intros Hlo Hhi H.
  apply andb_true_iff in H as [H1 H2]. apply Z.leb_le in H1, H2.
  apply andb_true_iff; split; apply Z.leb_le; lia.
Qed.

Lemma digit_val_char (c : ascii) :
  Char.is_digit c = true ->
  0 <= Char.digit_val c <= 9 /\ Char.digit_char (Char.digit_val c) = c.
Proof.
  intros H. apply is_digit_cases in H. cbn in H.
  repeat (destruct H as [<- | H]; [split; [cbv; split; discriminate
                                          | reflexivity] |]).
  destruct H.
Qed.

Ltac enum_digit c H :=
  let D := fresh "D" in
  match type of H with
  | Char.in_range ?lo ?hi _ = true =>
      pose proof (is_digit_cases c
                    (in_range_digit lo hi c ltac:(lia) ltac:(lia) H)) as D
  | Char.is_digit _ = true => pose proof (is_digit_cases c H) as D
  end;
  cbn in D;
  destruct D as [<-|[<-|[<-|[<-|[<-|[<-|[<-|[<-|[<-|[<-|[]]]]]]]]]]];
  try (vm_compute in H; discriminate H); clear H.

(** ** What the groups of the regular expression match *)

Lemma first_match_some {A} (alts : list Strptime.alt) (s : string)
    (k : string -> string -> option A) (x : A) :
  Strptime.first_match alts s k = Some x ->
  exists a txt r, In a alts /\ a s = Some (txt, r) /\ k txt r = Some x.
Proof.
  induction alts as [| a alts IH]; cbn; [discriminate |].
  destruct (a s) as [[txt r] |] eqn:Ea.
  - destruct (k txt r) as [y |] eqn:Ek.
    + intros H; injection H as <-. exists a, txt, r. auto.
    + intros H. destruct (IH H) as (a' & t' & r' & Hin & H').
      exists a', t', r'. auto.
  - intros H. destruct (IH H) as (a' & t' & r' & Hin & H').
    exists a', t', r'. auto.
Qed.

Lemma two_some (p1 p2 : ascii -> bool) (s txt r : string) :
  Strptime.two p1 p2 s = Some (txt, r) ->
  exists c1 c2, s = String c1 (String c2 r)
                /\ txt = String c1 (String c2 EmptyString)
                /\ p1 c1 = true /\ p2 c2 = true.
Proof.
  destruct s as [| c1 [| c2 s]]; cbn; try discriminate.
  destruct (p1 c1) eqn:E1; [| discriminate].
  destruct (p2 c2) eqn:E2; [| discriminate].
  cbn. intros H; injection H as <- <-. exists c1, c2. auto.
Qed.

Lemma one_some (p : ascii -> bool) (s txt r : string) :
  Strptime.one p s = Some (txt, r) ->
  exists c, s = String c r /\ txt = String c EmptyString /\ p c = true.
Proof.
  destruct s as [| c s]; cbn; try discriminate.
  destruct (p c) eqn:E; [| discriminate].
  intros H; injection H as <- <-. exists c. auto.
Qed.

Lemma literal_some (c : ascii) (s r : string) :
  Strptime.literal c s = Some r -> s = String c r.
Proof.
  destruct s as [| a s]; cbn; [discriminate |].
  destruct (Ascii.eqb a c) eqn:E; [| discriminate].
  apply Ascii.eqb_eq in E. intros H; injection H as <-. now subst.
Qed.

Lemma chr_true (c a : ascii) : Strptime.chr c a = true -> a = c.
Proof. unfold Strptime.chr. intros H. apply Ascii.eqb_eq in H. auto. Qed.

Ltac solve_group :=
  split; [reflexivity |];
  eexists; split; [vm_compute; reflexivity |];
  split; [lia | cbn; tauto].

Lemma group_m_sound (a : Strptime.alt) (s txt r : string) :
  In a Strptime.group_m -> a s = Some (txt, r) ->
  s = (txt ++ r)%string
  /\ exists m, PyInt.int txt = Some m /\ 1 <= m <= 12
               /\ In txt (month_texts m).
Proof.
  intros [<- | [<- | [<- | []]]] H.
  - apply two_some in H as (c1 & c2 & -> & -> & H1 & H2).
    apply chr_true in H1 as ->. enum_digit c2 H2; solve_group.
  - apply two_some in H as (c1 & c2 & -> & -> & H1 & H2).
    apply chr_true in H1 as ->. enum_digit c2 H2; solve_group.
  - apply one_some in H as (c1 & -> & -> & H1).
    enum_digit c1 H1; solve_group.
Qed.

Lemma group_d_sound (a : Strptime.alt) (s txt r : string) :
  In a Strptime.group_d -> a s = Some (txt, r) ->
  s = (txt ++ r)%string
  /\ exists d, PyInt.int txt = Some d /\ 1 <= d <= 31
               /\ In txt (day_texts d).
Proof.
  intros [<- | [<- | [<- | [<- | [<- | []]]]]] H.
  - apply two_some in H as (c1 & c2 & -> & -> & H1 & H2).
    apply chr_true in H1 as ->. enum_digit c2 H2; solve_group.
  - apply two_some in H as (c1 & c2 & -> & -> & H1 & H2).
    enum_digit c1 H1; enum_digit c2 H2; solve_group.
  - apply two_some in H as (c1 & c2 & -> & -> & H1 & H2).
    apply chr_true in H1 as ->. enum_digit c2 H2; solve_group.
  - apply one_some in H as (c1 & -> & -> & H1).
    enum_digit c1 H1; solve_group.
  - apply two_some in H as (c1 & c2 & -> & -> & H1 & H2).
    apply chr_true in H1 as ->. enum_digit c2 H2; solve_group.
Qed.

Lemma zrange_in (lo : Z) (n : nat) (m : Z) :
  lo <= m < lo + Z.of_nat n -> In m (zrange lo n).
Proof.
  intros H. unfold zrange. apply in_map_iff.
  exists (Z.to_nat (m - lo)). split; [lia |].
  apply in_seq. lia.
Qed.

Ltac enum_range m lo n :=
  let R := fresh "R" in
  assert (R : In m (zrange lo n)) by (apply zrange_in; simpl Z.of_nat; lia);
  vm_compute in R;
  repeat (destruct R as [<- | R]); [.. | destruct R].

(** ** The year group *)

Lemma group_Y_some (s ty r : string) :
  Strptime.group_Y s = Some (ty, r) ->
  exists a b c d,
    s = String a (String b (String c (String d r)))
    /\ ty = String a (String b (String c (String d EmptyString)))
    /\ Char.is_digit a = true /\ Char.is_digit b = true
    /\ Char.is_digit c = true /\ Char.is_digit d = true.
Proof.
  destruct s as [| a [| b [| c [| d s]]]]; cbn; try discriminate.
  destruct (Char.is_digit a) eqn:Ea; [| discriminate].
  destruct (Char.is_digit b) eqn:Eb; [| discriminate].
  destruct (Char.is_digit c) eqn:Ec; [| discriminate].
  destruct (Char.is_digit d) eqn:Ed; [| discriminate].
  cbn. intros H; injection H as <- <-. exists a, b, c, d.
  repeat split; auto.
Qed.

Lemma int_four (a b c d : ascii) :
  Char.is_digit a = true -> Char.is_digit b = true ->
  Char.is_digit c = true -> Char.is_digit d = true ->
  PyInt.int (String a (String b (String c (String d EmptyString))))
  = Some (1000 * Char.digit_val a + 100 * Char.digit_val b
          + 10 * Char.digit_val c + Char.digit_val d).
Proof.
  intros Ha Hb Hc Hd.
  destruct (digit_is_not_sign_or_space a Ha) as (_ & _ & ->).
  cbn [PyInt.unsigned]. rewrite Ha.
  rewrite !digits_step by assumption. cbn [PyInt.digits].
  f_equal. lia.
Qed.

Lemma four_digits_value (a b c d : ascii) :
  Char.is_digit a = true -> Char.is_digit b = true ->
  Char.is_digit c = true -> Char.is_digit d = true ->
  let y := 1000 * Char.digit_val a + 100 * Char.digit_val b
           + 10 * Char.digit_val c + Char.digit_val d in
  0 <= y <= 9999
  /\ four_digits y = String a (String b (String c (String d EmptyString))).
Proof.
  intros Ha Hb Hc Hd y.
  destruct (digit_val_char a Ha) as [Ra Ca].
  destruct (digit_val_char b Hb) as [Rb Cb].
  destruct (digit_val_char c Hc) as [Rc Cc].
  destruct (digit_val_char d Hd) as [Rd Cd].
  split; [subst y; lia |].
  assert (E1 : y / 1000 = Char.digit_val a)
    by (subst y; Z.to_euclidean_division_equations; lia).
  assert (E2 : y / 100 mod 10 = Char.digit_val b)
    by (subst y; Z.to_euclidean_division_equations; lia).
  assert (E3 : y / 10 mod 10 = Char.digit_val c)
    by (subst y; Z.to_euclidean_division_equations; lia).
  assert (E4 : y mod 10 = Char.digit_val d)
    by (subst y; Z.to_euclidean_division_equations; lia).
  unfold four_digits, digit. rewrite E1, E2, E3, E4, Ca, Cb, Cc, Cd.
  reflexivity.
Qed.

Lemma four_digits_chars (y : Z) :
  0 <= y <= 9999 ->
  exists a b c d,
    four_digits y = String a (String b (String c (String d EmptyString)))
    /\ Char.is_digit a = true /\ Char.is_digit b = true
    /\ Char.is_digit c = true /\ Char.is_digit d = true
    /\ 1000 * Char.digit_val a + 100 * Char.digit_val b
       + 10 * Char.digit_val c + Char.digit_val d = y.
Proof.
  intros H.
  assert (R1 : 0 <= y / 1000 < 10)
    by (Z.to_euclidean_division_equations; lia).
  assert (R2 : 0 <= y / 100 mod 10 < 10)
    by (Z.to_euclidean_division_equations; lia).
  assert (R3 : 0 <= y / 10 mod 10 < 10)
    by (Z.to_euclidean_division_equations; lia).
  assert (R4 : 0 <= y mod 10 < 10)
    by (Z.to_euclidean_division_equations; lia).
  destruct (digit_char_spec _ R1) as [D1 V1].
  destruct (digit_char_spec _ R2) as [D2 V2].
  destruct (digit_char_spec _ R3) as [D3 V3].
  destruct (digit_char_spec _ R4) as [D4 V4].
  do 4 eexists. split; [reflexivity |].
  repeat split; auto.
  rewrite V1, V2, V3, V4. Z.to_euclidean_division_equations; lia.
Qed.

Lemma days_in_month_le (y m : Z) :
  1 <= m <= 12 -> 28 <= Date.days_in_month y m <= 31.
Proof.
  intros H. enum_range m 1 12%nat; unfold Date.days_in_month;
    destruct (Date.is_leap y); vm_compute; split; discriminate.
Qed.

Lemma check_fields_ranges (y m d : Z) :
  Date.check_fields y m d = true ->
  1 <= y <= 9999 /\ 1 <= m <= 12 /\ 1 <= d <= 31.
Proof.
  unfold Date.check_fields. intros H.
  repeat (apply andb_true_iff in H as [H ?]).
  repeat match goal with
         | E : (_ <=? _) = true |- _ => apply Z.leb_le in E
         end.
  pose proof (days_in_month_le y m ltac:(lia)). lia.
Qed.

(** ** [parse_date] accepts exactly the spellings of real dates *)

Lemma parse_date_sound (s : string) (d : date) :
  parse_date s = Some d -> real_date d /\ spelling d s.
Proof.
  unfold parse_date, Strptime.strptime, Strptime.regex.
  destruct (Strptime.group_Y s) as [[ty r1] |] eqn:EY; [| discriminate].
  apply group_Y_some in EY as (a & b & c & e & -> & -> & Ha & Hb & Hc & He).
  destruct (Strptime.literal "-" r1) as [r2 |] eqn:E1; [| discriminate].
  apply literal_some in E1 as ->.
  destruct (Strptime.first_match Strptime.group_m r2 _)
    as [[[[ty tm] td] rest] |] eqn:EM; [| discriminate].
  apply first_match_some in EM as (am & tm0 & r3 & Hm & Em & EM).
  destruct (Strptime.literal "-" r3) as [r4 |] eqn:E2; [| discriminate].
  apply literal_some in E2 as ->.
  apply first_match_some in EM as (ad & td0 & r5 & Hd & Ed & EM).
  injection EM as <- <- <- <-.
  destruct (group_m_sound _ _ _ _ Hm Em) as (-> & m & Im & Rm & Tm).
  destruct (group_d_sound _ _ _ _ Hd Ed) as (-> & dd & Id & Rd & Td).
  destruct r5; [| discriminate].
  rewrite (int_four a b c e Ha Hb Hc He), Im, Id.
  destruct (four_digits_value a b c e Ha Hb Hc He) as [Ry Fy].
  cbv zeta in Ry, Fy.
  remember (1000 * Char.digit_val a + 100 * Char.digit_val b
            + 10 * Char.digit_val c + Char.digit_val e) as y eqn:Ey.
  clear Ey.
  destruct (Date.check_fields _ m dd) eqn:EC; [| discriminate].
  intros H. cbv beta iota in H. injection H as <-.
  split; [exact EC |].
  exists tm0, td0. cbn [year month day]. rewrite Fy.
  repeat split; auto.
  cbn [String.append]. repeat f_equal.
  clear. induction td0; cbn; congruence.
Qed.

Lemma group_Y_four_digits (y : Z) (r : string) :
  0 <= y <= 9999 ->
  Strptime.group_Y (four_digits y ++ r)%string = Some (four_digits y, r)
  /\ PyInt.int (four_digits y) = Some y.
Proof.
  intros H.
  destruct (four_digits_chars y H)
    as (a & b & c & d & -> & Ha & Hb & Hc & Hd & Hy).
  split.
  - cbn. rewrite Ha, Hb, Hc, Hd. reflexivity.
  - rewrite int_four by assumption. now rewrite Hy.
Qed.

(** A month text followed by a hyphen: the group matches exactly that
    text, whatever comes next. *)
Lemma group_m_complete {A} (m : Z) (tm rest : string)
    (K : string -> string -> option A) :
  1 <= m <= 12 -> In tm (month_texts m) ->
  Strptime.first_match Strptime.group_m (tm ++ String "-" rest)%string
    (fun t r3 =>
       match Strptime.literal "-" r3 with
       | None => None
       | Some r4 => K t r4
       end)
  = K tm rest
  /\ PyInt.int tm = Some m.
Proof.
  intros H Hin. enum_range m 1 12%nat;
    vm_compute in Hin;
    repeat (destruct Hin as [<- | Hin]); try destruct Hin;
    (split; [cbn; destruct (K _ rest); reflexivity | reflexivity]).
Qed.

(** A day text at the end of the input. *)
Lemma group_d_complete {A} (d : Z) (td : string)
    (K : string -> string -> option A) :
  1 <= d <= 31 -> In td (day_texts d) ->
  (forall t r, K t r <> None) ->
  Strptime.first_match Strptime.group_d td K = K td EmptyString
  /\ PyInt.int td = Some d.
Proof.
  intros H Hin HK. enum_range d 1 31%nat;
    vm_compute in Hin;
    repeat (destruct Hin as [<- | Hin]); try destruct Hin;
    (split; [| reflexivity]); cbn;
    match goal with
    | |- match K ?t ?r with _ => _ end = _ =>
        specialize (HK t r); destruct (K t r); [reflexivity | contradiction]
    end.
Qed.

Lemma parse_date_complete (s : string) (d : date) :
  real_date d -> spelling d s -> parse_date s = Some d.
Proof.
  intros Hr (tm & td & Hm & Hd & ->).
  destruct d as [y m dd]. unfold real_date in Hr. cbn [year month day] in *.
  destruct (check_fields_ranges _ _ _ Hr) as (Ry & Rm & Rd).
  unfold parse_date, Strptime.strptime, Strptime.regex.
  destruct (group_Y_four_digits y ("-" ++ tm ++ "-" ++ td)%string
              ltac:(lia)) as [EY IY].
  rewrite EY. cbn [Strptime.literal String.append].
  change (Ascii.eqb "-" "-") with true. cbv iota.
  destruct (group_m_complete m tm td
              (fun t r4 =>
                 Strptime.first_match Strptime.group_d r4
                   (fun td0 r5 => Some (four_digits y, t, td0, r5)))
              Rm Hm) as [EM IM].
  rewrite EM.
  destruct (group_d_complete dd td
              (fun td0 r5 => Some (four_digits y, tm, td0, r5))
              Rd Hd ltac:(discriminate)) as [ED ID].
  rewrite ED, IY, IM, ID, Hr. reflexivity.
Qed.


(** ** Strict literals *)



Lemma iso_text_spelling (d : date) : spelling d (iso_text d).
Proof.
  exists (two_digits (month d)), (two_digits (day d)).
  repeat split; now left.
Qed.


(** ** The counting loop *)

Lemma dict_mem_get {A} (d : list (string * A)) (k : string) :
  (dict_mem d k = true <-> exists v, dict_get d k = Some v)
  /\ (dict_mem d k = false <-> dict_get d k = None).
Proof.
  unfold dict_mem. destruct (dict_get d k) as [v |]; split; split;
    try discriminate; try reflexivity; eauto.
  intros [v' H]; discriminate.
Qed.

Lemma rooms_total_nonneg (room : string) (info : RoomInfo) :
  dict_get rooms room = Some info -> 0 <= total info /\ 0 <= price info.
Proof.
  unfold rooms. cbn [dict_get].
  repeat (destruct (String.eqb _ room);
          [intros H; injection H as <-; cbn; lia |]).
  discriminate.
Qed.

Lemma dates_overlap_some (a b c d : date) :
  dates_overlap (Some a) (Some b) (Some c) (Some d) = Ok (overlaps c d a b).
Proof.
  unfold dates_overlap, py_lt, bind, overlaps.
  destruct (Date.ltb a d), (Date.ltb c b); reflexivity.
Qed.

Lemma count_loop_filter (room : string) (q_in q_out : date)
    (bs : list Booking) :
  dated room bs ->
  forall count,
    count_loop room q_in q_out bs count
    = Ok (count + Z.of_nat (List.length (filter (counted room q_in q_out) bs))).
Proof.
  induction bs as [| b bs IH]; intros Hd count.
  - cbn. f_equal. lia.
  - assert (Hd' : dated room bs)
      by (intros b' Hin; apply Hd; now right).
    cbn [count_loop filter].
    destruct (String.eqb (room_type b) room) eqn:Er; cbn [negb].
    2: { replace (counted room q_in q_out b) with false
           by (unfold counted; now rewrite Er).
         now apply IH. }
    destruct (String.eqb (status b) "confirmed") eqn:Es; cbn [negb].
    2: { replace (counted room q_in q_out b) with false
           by (unfold counted; now rewrite Er, Es).
         now apply IH. }
    assert (Hc : counted room q_in q_out b
                 = match parse_date (check_in b), parse_date (check_out b)
                   with
                   | Some b_in, Some b_out => overlaps b_in b_out q_in q_out
                   | _, _ => false
                   end)
      by (unfold counted; now rewrite Er, Es).
    apply String.eqb_eq in Er, Es.
    destruct (Hd b (or_introl eq_refl) Er Es) as [Hi Ho].
    destruct (parse_date (check_in b)) as [b_in |]; [| contradiction].
    destruct (parse_date (check_out b)) as [b_out |]; [| contradiction].
    rewrite dates_overlap_some, Hc. cbn [bind].
    rewrite IH by assumption.
    destruct (overlaps b_in b_out q_in q_out); cbn [List.length];
      f_equal; lia.
Qed.


Lemma count_loop_ge (room : string) (q_in q_out : date) (bs : list Booking) :
  forall count n,
    count_loop room q_in q_out bs count = Ok n -> count <= n.
Proof.
  induction bs as [| b bs IH]; intros count n; cbn [count_loop].
  - intros H; injection H as <-. lia.
  - destruct (negb (String.eqb (room_type b) room)); [apply IH |].
    destruct (negb (String.eqb (status b) "confirmed")); [apply IH |].
    destruct (dates_overlap _ _ _ _) as [[] | ex]; cbn [bind];
      try discriminate; intros H; apply IH in H; lia.
Qed.

Lemma well_formed_dated (room : string) (bs : list Booking) :
  well_formed bs -> dated room bs.
Proof.
  intros H b Hin _ _. unfold well_formed in H.
  rewrite Forall_forall in H. now apply H.
Qed.

Lemma booked_count_total (s : System) (room ci co : string)
    (q_in q_out : date) :
  parse_date ci = Some q_in -> parse_date co = Some q_out ->
  dated room (bookings s) ->
  exists n, booked_count_for_range s room ci co = Ok (Some n).
Proof.
  intros Hi Ho Hd. unfold booked_count_for_range.
  rewrite Hi, Ho, count_loop_filter by assumption. cbn [bind]. eauto.
Qed.

(** ** A ledger of bookings that all cover the same nights *)

Lemma count_loop_feb (bs : list Booking) (q_in q_out : date) :
  Forall covers_feb bs ->
  forall count,
    count_loop "single" q_in q_out bs count
    = Ok (if overlaps (mkdate 2024 2 1) (mkdate 2024 2 5) q_in q_out
          then count + Z.of_nat (List.length bs) else count).
Proof.
  induction 1 as [| b bs (Hr & Hs & Hi & Ho) _ IH]; intros count.
  - cbn. destruct (overlaps _ _ _ _); f_equal; lia.
  - cbn [count_loop]. rewrite Hr, Hs, Hi, Ho.
    change (parse_date "2024-02-01") with (Some (mkdate 2024 2 1)).
    change (parse_date "2024-02-05") with (Some (mkdate 2024 2 5)).
    cbn [String.eqb Ascii.eqb Bool.eqb negb].
    rewrite dates_overlap_some. cbn [bind]. rewrite IH.
    destruct (overlaps _ _ _ _); cbn [List.length]; f_equal; lia.
Qed.

Lemma available_feb (s : System) (ci co : string) (q_in q_out : date) :
  Forall covers_feb (bookings s) ->
  parse_date ci = Some q_in -> parse_date co = Some q_out ->
  available_rooms_for_range s "single" ci co
  = Ok (Some (Z.max 0
                (10 - (if overlaps (mkdate 2024 2 1) (mkdate 2024 2 5)
                            q_in q_out
                       then Z.of_nat (List.length (bookings s)) else 0)))).
Proof.
  intros H Hi Ho. unfold available_rooms_for_range, booked_count_for_range.
  change (dict_get rooms "single") with (Some (mkRoom 2000 10)).
  rewrite Hi, Ho, (count_loop_feb _ _ _ H). cbn [bind total].
  destruct (overlaps _ _ _ _); reflexivity.
Qed.

(** ** The paths of [create_booking] *)

(** The accepted path: every check passed, and the outcome is the new
    record appended and saved. *)
Lemma create_booking_accepted now s g e p room ci co n s' b msg :
  create_booking now s g e p room ci co n = (s', Ok (Some b, msg)) ->
  exists info nights available,
    dict_get rooms room = Some info
    /\ calculate_nights ci co = Some nights /\ 0 < nights
    /\ available_rooms_for_range s room ci co = Ok (Some available)
    /\ 0 < available
    /\ b = new_booking now s g e p room ci co n info nights
    /\ s' = appended s b
    /\ msg = "Booking created successfully".
Proof.
  unfold create_booking.
  destruct (dict_get rooms room) as [info |]; [| discriminate].
  destruct (calculate_nights ci co) as [nights |]; [| discriminate].
  destruct (nights <=? 0) eqn:En; [discriminate |].
  destruct (available_rooms_for_range s room ci co) as [[av |] | ex];
    try discriminate.
  destruct (av <=? 0) eqn:Ea; [discriminate |].
  intros H; injection H as <- <- <-.
  apply Z.leb_gt in En, Ea.
  exists info, nights, av. repeat split; auto.
Qed.

(** Every other path leaves the state as it was. *)
Lemma create_booking_not_accepted now s g e p room ci co n :
  (forall b msg,
     snd (create_booking now s g e p room ci co n) <> Ok (Some b, msg)) ->
  fst (create_booking now s g e p room ci co n) = s.
Proof.
  unfold create_booking.
  destruct (dict_get rooms room) as [info |]; [| reflexivity].
  destruct (calculate_nights ci co) as [nights |]; [| reflexivity].
  destruct (nights <=? 0); [reflexivity |].
  destruct (available_rooms_for_range s room ci co) as [[av |] | ex];
    try reflexivity.
  destruct (av <=? 0); [reflexivity |].
  intros H. exfalso. eapply H. reflexivity.
Qed.

Lemma create_booking_state now s g e p room ci co n :
  let r := create_booking now s g e p room ci co n in
  fst r = s
  \/ exists b msg, snd r = Ok (Some b, msg) /\ fst r = appended s b.
Proof.
  cbv zeta.
  destruct (create_booking now s g e p room ci co n) as [s' [[[b |] msg] | ex]]
    eqn:E; cbn [fst snd].
  - right. exists b, msg. split; [reflexivity |].
    destruct (create_booking_accepted _ _ _ _ _ _ _ _ _ _ _ _ E)
      as (? & ? & ? & _ & _ & _ & _ & _ & _ & Hs & _). exact Hs.
  - left. change s' with (fst (s', Ok (None (A:=Booking), msg))).
    rewrite <- E. apply create_booking_not_accepted.
    rewrite E. cbn. discriminate.
  - left. change s' with
      (fst (s', Raise (A:=option Booking * string) ex)).
    rewrite <- E. apply create_booking_not_accepted.
    rewrite E. cbn. discriminate.
Qed.

(** ** The loop of [cancel_booking] keeps every booking id in place *)

Lemma max_suffix_ids (bs bs' : list Booking) :
  map booking_id bs = map booking_id bs' ->
  forall m, max_suffix bs m = max_suffix bs' m.
Proof.
  revert bs'; induction bs as [| b bs IH]; intros [| b' bs'] H m;
    try discriminate; [reflexivity |].
  cbn [map] in H. injection H as Hb Hr.
  cbn [max_suffix]. rewrite Hb.
  destruct (Str.startswith (booking_id b') "BK"); [| now apply IH].
  destruct (PyInt.int _); now apply IH.
Qed.

Lemma cancel_loop_ids now id (bs : list Booking) :
  map booking_id (fst (cancel_loop now id bs)) = map booking_id bs.
Proof.
  induction bs as [| b bs IH]; [reflexivity |].
  cbn [cancel_loop].
  destruct (String.eqb (booking_id b) id).
  - destruct (String.eqb (status b) "cancelled"); reflexivity.
  - destruct (cancel_loop now id bs) as [rest' r]. cbn in *. now rewrite IH.
Qed.

Lemma cancel_booking_ids now s id :
  map booking_id (bookings (fst (cancel_booking now s id)))
  = map booking_id (bookings s).
Proof.
  unfold cancel_booking.
  pose proof (cancel_loop_ids now id (bookings s)) as H.
  destruct (cancel_loop now id (bookings s)) as [bs' [[b []] |]];
    cbn in *; auto.
Qed.

Lemma max_suffix_nonneg (s : System) : 0 <= max_suffix (bookings s) 0.
Proof. apply max_suffix_ge. Qed.

Lemma max_suffix_appended (s : System) (b : Booking) :
  booking_id b = generate_booking_id s ->
  max_suffix (bookings (appended s b)) 0 = max_suffix (bookings s) 0 + 1.
Proof.
  intros Hb. pose proof (max_suffix_nonneg s) as Hm.
  unfold appended, save_bookings. cbn [bookings].
  rewrite max_suffix_app. cbn [max_suffix]. rewrite Hb.
  unfold generate_booking_id.
  match goal with
  | |- context [Str.startswith ("BK" ++ ?x)%string "BK"] =>
      replace (Str.startswith ("BK" ++ x)%string "BK") with true
        by (symmetry; apply prefix_iff; eauto);
      change (Str.slice_from 2 ("BK" ++ x)%string) with x
  end.
  rewrite int_format_04d by lia.
  destruct (_ >? _) eqn:E; [reflexivity |].
  rewrite Z.gtb_ltb in E. apply Z.ltb_ge in E. lia.
Qed.

(** ** What [cancel_booking] does to the booking it finds *)

Lemma cancel_loop_not_found (now id : string) (bs : list Booking) :
  find_booking bs id = None -> cancel_loop now id bs = (bs, None).
Proof.
  induction bs as [| b bs IH]; [reflexivity |].
  cbn [find_booking cancel_loop].
  destruct (String.eqb (booking_id b) id); [discriminate |].
  intros H. now rewrite (IH H).
Qed.

(** The booking found is the first one with the id; the loop changes that
    booking only, and only when it is not cancelled yet. *)
Lemma cancel_loop_found (now id : string) (bs : list Booking) (b : Booking) :
  find_booking bs id = Some b ->
  exists pre post,
    bs = pre ++ b :: post
    /\ find_booking pre id = None
    /\ booking_id b = id
    /\ cancel_loop now id bs
       = if String.eqb (status b) "cancelled"
         then (bs, Some (b, false))
         else (pre ++ mark_cancelled now b :: post,
               Some (mark_cancelled now b, true)).
Proof.
  induction bs as [| x bs IH]; [discriminate |].
  cbn [find_booking cancel_loop].
  destruct (String.eqb (booking_id x) id) eqn:E.
  - intros H; injection H as ->. apply String.eqb_eq in E.
    exists [], bs. repeat split; auto.
  - intros H. destruct (IH H) as (pre & post & -> & Hp & Hid & Hc).
    exists (x :: pre), post. repeat split; auto.
    + cbn [find_booking]. now rewrite E.
    + rewrite Hc.
      destruct (String.eqb (status b) "cancelled"); reflexivity.
Qed.

Lemma find_booking_app (pre post : list Booking) (b : Booking) (id : string) :
  find_booking pre id = None -> booking_id b = id ->
  find_booking (pre ++ b :: post) id = Some b.
Proof.
  intros Hp Hb. induction pre as [| x pre IH]; cbn [find_booking app].
  - rewrite Hb, String.eqb_refl. reflexivity.
  - cbn [find_booking] in Hp.
    destruct (String.eqb (booking_id x) id); [discriminate | auto].
Qed.

(** The state after [cancel_booking]: the same, or the ledger with one
    booking marked and saved. *)
Lemma cancel_booking_state (now : string) (s : System) (id : string) :
  fst (cancel_booking now s id) = s
  \/ exists b pre post,
       bookings s = pre ++ b :: post
       /\ fst (cancel_booking now s id)
          = save_bookings
              (mkSystem (pre ++ mark_cancelled now b :: post) (file s)).
Proof.
  unfold cancel_booking.
  destruct (find_booking (bookings s) id) as [b |] eqn:F.
  - destruct (cancel_loop_found now id _ b F)
      as (pre & post & Hbs & _ & _ & ->).
    destruct (String.eqb (status b) "cancelled"); [now left |].
    right. exists b, pre, post. auto.
  - rewrite (cancel_loop_not_found now id _ F). now left.
Qed.

(** ** Substrings and lower case *)

Lemma contains_iff (s q : string) :
  Str.contains s q = true <-> substring q s.
Proof.
  unfold substring. induction s as [| c s IH]; cbn [Str.contains].
  - rewrite orb_false_r, prefix_iff. split.
    + intros [r Hr]. exists EmptyString, r. exact Hr.
    + intros ([| c pre] & post & H); [eauto | discriminate].
  - rewrite orb_true_iff, prefix_iff, IH. split.
    + intros [[r Hr] | (pre & post & Hr)].
      * exists EmptyString, r. exact Hr.
      * exists (String c pre), post. cbn. now rewrite Hr.
    + intros ([| c' pre] & post & H).
      * left. eauto.
      * right. cbn in H. injection H as _ H. eauto.
Qed.






(** The loop appends the matching bookings to the results in the order
    of the ledger. *)
Lemma search_loop_filter (q : string) (bs results : list Booking) :
  search_loop q bs results = results ++ filter (matches_query q) bs.
Proof.
  revert results; induction bs as [| b bs IH]; intros results;
    cbn [search_loop filter].
  - now rewrite app_nil_r.
  - destruct (matches_query q b); rewrite IH; [| reflexivity].
    now rewrite <- app_assoc.
Qed.

(** ** Ledgers of the data model are kept by the operations *)

Lemma well_formed_empty : well_formed (bookings empty_system).
Proof. constructor. Qed.

Lemma well_formed_create now s g e p room ci co n :
  well_formed (bookings s) ->
  well_formed (bookings (fst (create_booking now s g e p room ci co n))).
Proof.
  intros H.
  destruct (create_booking now s g e p room ci co n) as [s' [[[b |] msg] | ex]]
    eqn:E;
    try (replace s' with s;
         [exact H
         | rewrite <- (create_booking_not_accepted now s g e p room ci co n);
           rewrite E; [reflexivity | cbn; discriminate]]).
  destruct (create_booking_accepted _ _ _ _ _ _ _ _ _ _ _ _ E)
    as (info & nights & av & _ & Hn & _ & _ & _ & -> & -> & _).
  cbn [fst appended save_bookings bookings].
  apply Forall_app. split; [exact H |].
  constructor; [| constructor].
  unfold stored_dates, new_booking. cbn [check_in check_out].
  unfold calculate_nights in Hn.
  destruct (parse_date ci), (parse_date co); try discriminate.
  split; discriminate.
Qed.

Lemma well_formed_cancel now s id :
  well_formed (bookings s) ->
  well_formed (bookings (fst (cancel_booking now s id))).
Proof.
  intros H.
  destruct (cancel_booking_state now s id)
    as [-> | (b & pre & post & Hs & ->)]; [exact H |].
  unfold well_formed in *. cbn [save_bookings bookings]. rewrite Hs in H.
  apply Forall_app in H as [Hp Hq]. apply Forall_app. split; [exact Hp |].
  inversion Hq as [| ? ? Hb Hpost]; subst.
  constructor; [exact Hb | exact Hpost].
Qed.

(** The condition on the ledger cannot be dropped: a confirmed booking
    whose stored text is no date makes the comparison raise. *)
Example stored_text_not_a_date :
  booked_count_for_range
    (mkSystem [sample_booking "BK0001" "Zed" "zed@example.com" "single"
                 "2024-02-01" "soon" "confirmed"] [])
    "single" "2024-02-01" "2024-02-02"
  = Raise TypeError.
Proof. reflexivity. Qed.

(** ** Scenario 1 of the specification and the library models *)

Example first_booking :
  snd (create_booking "2024-01-01T10:00:00" empty_system "Ann"
         "ann@example.com" "555-0101" "single" "2024-01-01" "2024-01-03" 2)
  = Ok (Some (mkBooking "BK0001" "Ann" "ann@example.com" "555-0101" "single"
                "2024-01-01" "2024-01-03" 2 2 4000 "confirmed"
                "2024-01-01T10:00:00" None),
        "Booking created successfully").
Proof. reflexivity. Qed.

Example nights_across_leap_day :
  calculate_nights "2024-02-28" "2024-03-01" = Some 2
  /\ calculate_nights "2023-02-28" "2023-03-01" = Some 1.
Proof. split; reflexivity. Qed.

Example parse_date_rejects :
  parse_date "2024-02-30" = None /\ parse_date "0000-01-01" = None
  /\ parse_date "2024-01-05 " = None /\ parse_date " 2024-01-05" = None
  /\ parse_date "2024-00-10" = None /\ parse_date "24-01-05" = None.
Proof. repeat split; reflexivity. Qed.

Example parse_date_accepts :
  parse_date "2024-1- 5" = Some (mkdate 2024 1 5)
  /\ parse_date "0001-01-01" = Some (mkdate 1 1 1)
  /\ parse_date "9999-12-31" = Some (mkdate 9999 12 31).
Proof. repeat split; reflexivity. Qed.

Example toordinal_epoch :
  Date.toordinal (mkdate 1 1 1) = 1
  /\ Date.toordinal (mkdate 2024 2 29) = 738945.
Proof. split; reflexivity. Qed.

Example lower_latin1 :
  Str.lower "ALICE Smith-O'Neil 42" = "alice smith-o'neil 42".
Proof. reflexivity. Qed.

(** ** The models of [int] and [format] at work *)

Example int_plain : PyInt.int "0002" = Some 2.
Proof. reflexivity. Qed.

Example int_spaces_sign : PyInt.int "  +5 " = Some 5.
Proof. reflexivity. Qed.

Example int_underscore : PyInt.int "1_0" = Some 10.
Proof. reflexivity. Qed.

Example int_bad_underscore : PyInt.int "1__0" = None /\ PyInt.int "1_" = None.
Proof. split; reflexivity. Qed.

Example int_negative : PyInt.int "-5" = Some (-5).
Proof. reflexivity. Qed.

Example format_small : PyInt.format_04d 5 = "0005".
Proof. reflexivity. Qed.

Example format_large : PyInt.format_04d 12345 = "12345".
Proof. reflexivity. Qed.

Example format_negative : PyInt.format_04d (-5) = "-005".
Proof. reflexivity. Qed.

(** * The claims of the specification *)

(** C1, as the claim states it, fails: for a known room type and a
    check-in text that does not parse, the reason returned is not the text
    "Invalid date format" but a longer one; and when all ten single rooms
    are taken, the reason is not the text "No rooms available" but one
    that names the room type. *)
Lemma C1_counterexample :
  dict_mem rooms "single" = true
  /\ parse_date "not-a-date" = None
  /\ snd (create_booking "2024-01-01T10:00:00" empty_system "Ann"
            "ann@example.com" "555-0101" "single" "not-a-date" "2024-01-02" 2)
     <> Ok (None, "Invalid date format")
  /\ snd (create_booking "2024-01-01T10:00:00" empty_system "Ann"
            "ann@example.com" "555-0101" "single" "not-a-date" "2024-01-02" 2)
     = Ok (None, "Invalid date format. Use YYYY-MM-DD")
  /\ available_rooms_for_range full_house "single" "2024-02-02" "2024-02-03"
     = Ok (Some 0)
  /\ snd (create_booking "2024-01-16T08:00:00" full_house "Late"
            "late@example.com" "555-0111" "single" "2024-02-02" "2024-02-03"
            1)
     <> Ok (None, "No rooms available")
  /\ snd (create_booking "2024-01-16T08:00:00" full_house "Late"
            "late@example.com" "555-0111" "single" "2024-02-02" "2024-02-03"
            1)
     = Ok (None, "No single rooms available for those dates").
Proof.
  repeat match goal with |- _ /\ _ => split end;
    try (vm_compute; reflexivity).
  - discriminate.
  - intros H. vm_compute in H. discriminate H.
Qed.

(** C1, amended.  [create_booking] checks in a fixed order and the first
    failure decides: an unknown room type is rejected with
    "Invalid room type", whatever the dates; otherwise a date that fails
    to parse is rejected with "Invalid date format. Use YYYY-MM-DD";
    otherwise a number of nights that is not positive is rejected with
    "Check-out must be after check-in"; otherwise an Unknown availability
    is rejected with "Error calculating availability" and an availability
    that is not positive with
    "No <room type> rooms available for those dates".  Every rejection
    returns no record together with one of these reasons, and a record is
    returned only with the message of success. *)
Theorem C1_validation_order (now : string) (s : System)
    (g e p room ci co : string) (n : Z) :
  let r := snd (create_booking now s g e p room ci co n) in
  (dict_mem rooms room = false -> r = Ok (None, "Invalid room type"))
  /\ (dict_mem rooms room = true ->
      parse_date ci = None \/ parse_date co = None ->
      r = Ok (None, "Invalid date format. Use YYYY-MM-DD"))
  /\ (forall nights,
        dict_mem rooms room = true ->
        calculate_nights ci co = Some nights -> nights <= 0 ->
        r = Ok (None, "Check-out must be after check-in"))
  /\ (forall nights,
        dict_mem rooms room = true ->
        calculate_nights ci co = Some nights -> 0 < nights ->
        available_rooms_for_range s room ci co = Ok None ->
        r = Ok (None, "Error calculating availability"))
  /\ (forall nights available,
        dict_mem rooms room = true ->
        calculate_nights ci co = Some nights -> 0 < nights ->
        available_rooms_for_range s room ci co = Ok (Some available) ->
        available <= 0 ->
        r = Ok (None,
                ("No " ++ room ++ " rooms available for those dates")%string))
  /\ (forall o msg,
        r = Ok (o, msg) ->
        (o = None
         /\ In msg ["Invalid room type";
                    "Invalid date format. Use YYYY-MM-DD";
                    "Check-out must be after check-in";
                    "Error calculating availability";
                    ("No " ++ room
                     ++ " rooms available for those dates")%string])
        \/ (exists b, o = Some b /\ msg = "Booking created successfully")).
Proof.
  cbv zeta. unfold create_booking, dict_mem.
  destruct (dict_get rooms room) as [info |].
  2: { repeat split; try discriminate.
       cbn [snd]. intros o msg H; injection H as <- <-.
       left. split; [reflexivity | cbn; tauto]. }
  repeat match goal with |- _ /\ _ => split end.
  - discriminate.
  - intros _ [H | H]; unfold calculate_nights; rewrite H;
      [| destruct (parse_date ci)]; reflexivity.
  - intros nights _ -> Hn. apply Z.leb_le in Hn. now rewrite Hn.
  - intros nights _ -> Hn Ha. apply Z.leb_gt in Hn. now rewrite Hn, Ha.
  - intros nights av _ -> Hn Ha Hav.
    apply Z.leb_gt in Hn. apply Z.leb_le in Hav. now rewrite Hn, Ha, Hav.
  - intros o msg.
    destruct (calculate_nights ci co) as [nights |].
    2: { intros H; injection H as <- <-. left. cbn; tauto. }
    destruct (nights <=? 0).
    { intros H; injection H as <- <-. left. cbn; tauto. }
    destruct (available_rooms_for_range s room ci co) as [[av |] | ex];
      cbn [snd]; try discriminate.
    + destruct (av <=? 0); intros H; injection H as <- <-.
      * left. cbn; tauto.
      * right. eauto.
    + intros H; injection H as <- <-. left. cbn; tauto.
Qed.

(** The amended claim on the sample ledger: a check-out before the
    check-in, with a known room type and two dates that parse. *)
Lemma C1_validation_order_witness :
  snd (create_booking "2024-01-01T10:00:00" sample_system "Ann"
         "ann@example.com" "555-0101" "double" "2024-03-05" "2024-03-01" 2)
  = Ok (None, "Check-out must be after check-in").
Proof.
  destruct (C1_validation_order "2024-01-01T10:00:00" sample_system "Ann"
              "ann@example.com" "555-0101" "double" "2024-03-05" "2024-03-01"
              2) as (_ & _ & H & _).
  apply (H (-4)); [reflexivity | reflexivity | lia].
Defined.

(** C2.  [available_rooms_for_range] is Unknown for a room type that is
    not in the table of rooms.  For a known room type it is Unknown when
    [booked_count_for_range] is Invalid, and [max 0 (total - booked)] when
    the count is [booked]; every number it returns lies between 0 and the
    total of the room type, so it is never negative.  With two dates that
    parse (and a ledger whose compared bookings store dates) it does return
    that number. *)
Theorem C2_available_rooms (s : System) (room ci co : string) :
  (dict_mem rooms room = false ->
   available_rooms_for_range s room ci co = Ok None)
  /\ (forall info,
        dict_get rooms room = Some info ->
        (booked_count_for_range s room ci co = Ok None ->
         available_rooms_for_range s room ci co = Ok None)
        /\ (forall booked,
              booked_count_for_range s room ci co = Ok (Some booked) ->
              available_rooms_for_range s room ci co
              = Ok (Some (Z.max 0 (total info - booked))))
        /\ (forall a,
              available_rooms_for_range s room ci co = Ok (Some a) ->
              0 <= a <= total info)
        /\ (forall q_in q_out,
              parse_date ci = Some q_in -> parse_date co = Some q_out ->
              dated room (bookings s) ->
              exists booked,
                booked_count_for_range s room ci co = Ok (Some booked)
                /\ available_rooms_for_range s room ci co
                   = Ok (Some (Z.max 0 (total info - booked)))
                /\ 0 <= Z.max 0 (total info - booked) <= total info)).
Proof.
  split.
  - intros H. apply dict_mem_get in H. unfold available_rooms_for_range.
    now rewrite H.
  - intros info Hi. destruct (rooms_total_nonneg room info Hi) as [Ht _].
    assert (Hb : forall booked,
               booked_count_for_range s room ci co = Ok (Some booked) ->
               0 <= booked).
    { unfold booked_count_for_range. intros booked.
      destruct (parse_date ci), (parse_date co); try discriminate.
      destruct (count_loop _ _ _ _ _) as [n | ex] eqn:E; [| discriminate].
      cbn [bind]. intros H; injection H as <-.
      now apply count_loop_ge in E. }
    unfold available_rooms_for_range. rewrite Hi.
    repeat match goal with |- _ /\ _ => split end.
    + intros ->. reflexivity.
    + intros booked ->. reflexivity.
    + destruct (booked_count_for_range s room ci co) as [[n |] | ex];
        cbn [bind]; try discriminate.
      intros a H; injection H as <-. specialize (Hb n eq_refl). lia.
    + intros q_in q_out Hq1 Hq2 Hd.
      destruct (booked_count_total s room ci co q_in q_out Hq1 Hq2 Hd)
        as [n Hn].
      exists n. rewrite Hn. cbn [bind]. specialize (Hb n Hn).
      repeat split; lia.
Qed.

(** Ten single rooms, two of them booked on the nights asked for; and a
    room type that does not exist. *)
Lemma C2_available_rooms_witness :
  available_rooms_for_range sample_system "single" "2024-02-03" "2024-02-05"
  = Ok (Some 8)
  /\ available_rooms_for_range sample_system "penthouse" "2024-02-03"
       "2024-02-05" = Ok None.
Proof.
  destruct (C2_available_rooms sample_system "single" "2024-02-03"
              "2024-02-05") as (_ & H).
  destruct (C2_available_rooms sample_system "penthouse" "2024-02-03"
              "2024-02-05") as (H' & _).
  split.
  - destruct (H (mkRoom 2000 10) eq_refl) as (_ & Hb & _).
    apply (Hb 2). reflexivity.
  - apply H'. reflexivity.
Defined.

(** C3.  For every four dates, [dates_overlap] returns (without raising)
    true exactly when [startA < endB] and [startB < endA], the order being
    that of [date]; an interval that ends on day [D] and one that starts
    on day [D] do not overlap, whichever of the two is given first. *)
Theorem C3_dates_overlap (startA endA startB endB : date) :
  dates_overlap (Some startA) (Some endA) (Some startB) (Some endB)
  = Ok (Date.ltb startA endB && Date.ltb startB endA)
  /\ (dates_overlap (Some startA) (Some endA) (Some startB) (Some endB)
      = Ok true
      <-> Date.lt startA endB /\ Date.lt startB endA)
  /\ dates_overlap (Some startA) (Some endA) (Some endA) (Some endB)
     = Ok false
  /\ dates_overlap (Some endA) (Some endB) (Some startA) (Some endA)
     = Ok false.
Proof.
  assert (E : forall a b c d,
             dates_overlap (Some a) (Some b) (Some c) (Some d)
             = Ok (Date.ltb a d && Date.ltb c b)).
  { intros a b c d. unfold dates_overlap, py_lt, bind.
    destruct (Date.ltb a d); reflexivity. }
  assert (I : forall a, Date.ltb a a = false).
  { intros a. unfold Date.ltb. rewrite !Z.ltb_irrefl, !Z.eqb_refl.
    reflexivity. }
  repeat split.
  - apply E.
  - rewrite E in H. injection H as H. apply andb_true_iff in H. apply H.
  - rewrite E in H. injection H as H. apply andb_true_iff in H. apply H.
  - intros [H1 H2]. rewrite E. unfold Date.lt in *. now rewrite H1, H2.
  - rewrite E, I. now rewrite andb_false_r.
  - rewrite E, I. reflexivity.
Qed.



(** C5.  There are ten single rooms.  On every ledger of ten confirmed
    single-room bookings that all run from 2024-02-01 to 2024-02-05, an
    eleventh request for 2024-02-02 to 2024-02-03 is rejected with the
    reason that no single room is available, and leaves the ledger as it
    is; the request that follows, for 2024-02-05 to 2024-02-06, is
    accepted: a confirmed booking of one night is appended. *)
Theorem C5_full_house (s : System) (now1 now2 g1 e1 p1 g2 e2 p2 : string)
    (n1 n2 : Z) :
  List.length (bookings s) = 10%nat ->
  Forall covers_feb (bookings s) ->
  let r1 := create_booking now1 s g1 e1 p1 "single" "2024-02-02"
              "2024-02-03" n1 in
  let r2 := create_booking now2 (fst r1) g2 e2 p2 "single" "2024-02-05"
              "2024-02-06" n2 in
  dict_get rooms "single" = Some (mkRoom 2000 10)
  /\ r1 = (s, Ok (None, "No single rooms available for those dates"))
  /\ exists b,
       snd r2 = Ok (Some b, "Booking created successfully")
       /\ b = new_booking now2 s g2 e2 p2 "single" "2024-02-05" "2024-02-06"
                n2 (mkRoom 2000 10) 1
       /\ status b = "confirmed" /\ nights b = 1
       /\ bookings (fst r2) = bookings s ++ [b].
Proof.
  intros Hlen Hall r1 r2.
  assert (E1 : r1 = (s, Ok (None,
                            "No single rooms available for those dates"))).
  { subst r1 r2. unfold create_booking.
    change (dict_get rooms "single") with (Some (mkRoom 2000 10)).
    change (calculate_nights "2024-02-02" "2024-02-03") with (Some 1).
    rewrite (available_feb s "2024-02-02" "2024-02-03" (mkdate 2024 2 2)
               (mkdate 2024 2 3) Hall eq_refl eq_refl), Hlen.
    change (overlaps (mkdate 2024 2 1) (mkdate 2024 2 5) (mkdate 2024 2 2)
              (mkdate 2024 2 3)) with true.
    reflexivity. }
  split; [reflexivity |]. split; [exact E1 |].
  subst r2. rewrite E1. cbn [fst]. unfold create_booking.
  change (dict_get rooms "single") with (Some (mkRoom 2000 10)).
  change (calculate_nights "2024-02-05" "2024-02-06") with (Some 1).
  rewrite (available_feb s "2024-02-05" "2024-02-06" (mkdate 2024 2 5)
             (mkdate 2024 2 6) Hall eq_refl eq_refl).
  change (overlaps (mkdate 2024 2 1) (mkdate 2024 2 5) (mkdate 2024 2 5)
            (mkdate 2024 2 6)) with false.
  change (Z.max 0 (10 - 0)) with 10.
  change (1 <=? 0) with false. change (10 <=? 0) with false.
  cbv iota. cbn [snd fst save_bookings bookings].
  eexists. split; [reflexivity |].
  split; [reflexivity |]. split; [reflexivity |]. split; reflexivity.
Qed.

(** The scenario as the specification runs it: the ten bookings are made
    by ten accepted requests on an empty ledger; the eleventh request is
    rejected and the twelfth gets the id "BK0011". *)
Lemma C5_full_house_witness :
  List.length (bookings full_house) = 10%nat
  /\ create_booking "2024-01-16T08:00:00" full_house "Late" "late@example.com"
       "555-0111" "single" "2024-02-02" "2024-02-03" 1
     = (full_house, Ok (None, "No single rooms available for those dates"))
  /\ exists b,
       snd (create_booking "2024-01-16T08:05:00"
              (fst (create_booking "2024-01-16T08:00:00" full_house "Late"
                      "late@example.com" "555-0111" "single" "2024-02-02"
                      "2024-02-03" 1))
              "Next" "next@example.com" "555-0112" "single" "2024-02-05"
              "2024-02-06" 2)
       = Ok (Some b, "Booking created successfully")
       /\ booking_id b = "BK0011".
Proof.
  assert (Hlen : List.length (bookings full_house) = 10%nat)
    by (vm_compute; reflexivity).
  assert (Hall : Forall covers_feb (bookings full_house))
    by (vm_compute; repeat constructor).
  destruct (C5_full_house full_house "2024-01-16T08:00:00"
              "2024-01-16T08:05:00" "Late" "late@example.com" "555-0111"
              "Next" "next@example.com" "555-0112" 1 2 Hlen Hall)
    as (_ & H1 & b & H2 & Hb & _).
  split; [exact Hlen |]. split; [exact H1 |].
  exists b. split; [exact H2 |].
  rewrite Hb. vm_compute. reflexivity.
Defined.

(** C6.  [cancel_booking] looks up the first booking with the id.  For an
    id that is not in the ledger it returns NotFound and changes nothing.
    For a booking that is already cancelled it returns that record as it
    is and changes nothing: ledger and file stay the same.  For a booking
    that is not cancelled (a confirmed one) it sets the status to
    cancelled, stamps [cancelled_at] with the current time and leaves the
    other fields and all other bookings alone, writes the ledger to the
    file, and returns the record now in the ledger.  Cancelling again, at
    whatever time, returns the same record and the same state
    (idempotence), and a cancelled booking of the ledger is still in it,
    unchanged, after any cancellation (the transition is terminal). *)
Theorem C6_cancel_booking (now : string) (s : System) (id : string) :
  let r := cancel_booking now s id in
  (get_booking s id = None -> r = (s, None))
  /\ (forall b,
        get_booking s id = Some b -> status b = "cancelled" ->
        r = (s, Some b))
  /\ (forall b,
        get_booking s id = Some b -> status b <> "cancelled" ->
        exists pre post,
          bookings s = pre ++ b :: post
          /\ find_booking pre id = None
          /\ snd r = Some (mark_cancelled now b)
          /\ status (mark_cancelled now b) = "cancelled"
          /\ cancelled_at (mark_cancelled now b) = Some now
          /\ bookings (fst r) = pre ++ mark_cancelled now b :: post
          /\ file (fst r) = bookings (fst r) :: file s
          /\ get_booking (fst r) id = Some (mark_cancelled now b))
  /\ (forall now', cancel_booking now' (fst r) id = (fst r, snd r))
  /\ (forall b,
        In b (bookings s) -> status b = "cancelled" ->
        In b (bookings (fst r))).
Proof.
  cbv zeta. unfold cancel_booking, get_booking.
  destruct (find_booking (bookings s) id) as [b |] eqn:F.
  - destruct (cancel_loop_found now id _ b F)
      as (pre & post & Hbs & Hpre & Hid & Hc).
    rewrite Hc. destruct (String.eqb (status b) "cancelled") eqn:Es.
    + apply String.eqb_eq in Es.
      repeat match goal with |- _ /\ _ => split end.
      * discriminate.
      * intros b' H _; injection H as <-. reflexivity.
      * intros b' H Hn; injection H as <-. contradiction.
      * intros now'. cbn [fst snd].
        destruct (cancel_loop_found now' id _ b F)
          as (pre' & post' & _ & _ & _ & Hc').
        rewrite Hc'. apply String.eqb_eq in Es. now rewrite Es.
      * auto.
    + assert (Hne : status b <> "cancelled")
        by (intros H; apply String.eqb_eq in H; congruence).
      assert (Hf : find_booking (pre ++ mark_cancelled now b :: post) id
                   = Some (mark_cancelled now b))
        by (now apply find_booking_app).
      repeat match goal with |- _ /\ _ => split end.
      * discriminate.
      * intros b' H Hs; injection H as <-. contradiction.
      * intros b' H _; injection H as <-.
        exists pre, post. cbn [fst snd save_bookings bookings file].
        repeat split; auto.
      * intros now'. cbn [fst snd save_bookings bookings].
        destruct (cancel_loop_found now' id _ _ Hf)
          as (pre' & post' & _ & _ & _ & Hc').
        rewrite Hc'. reflexivity.
      * intros b' Hin Hs. cbn [fst save_bookings bookings].
        rewrite Hbs in Hin. apply in_app_or in Hin.
        apply in_or_app. destruct Hin as [Hin | [<- | Hin]]; auto.
        -- contradiction.
        -- right. now right.
  - rewrite (cancel_loop_not_found now id _ F).
    repeat match goal with |- _ /\ _ => split end; try discriminate; auto.
    intros now'. cbn [fst snd]. now rewrite (cancel_loop_not_found now' id _ F).
Qed.

(** On the sample ledger: the confirmed booking "BK0007" is cancelled and
    saved, a second cancellation one hour later changes nothing, the
    cancelled booking "BK0003" is returned as it is, and "BK9999" is not
    found. *)
Lemma C6_cancel_booking_witness :
  let r := cancel_booking "2024-01-20T10:00:00" sample_system "BK0007" in
  option_map status (snd r) = Some "cancelled"
  /\ option_map cancelled_at (snd r) = Some (Some "2024-01-20T10:00:00")
  /\ file (fst r) = [bookings (fst r)]
  /\ cancel_booking "2024-01-20T11:00:00" (fst r) "BK0007" = (fst r, snd r)
  /\ cancel_booking "2024-01-20T10:00:00" sample_system "BK0003"
     = (sample_system, get_booking sample_system "BK0003")
  /\ cancel_booking "2024-01-20T10:00:00" sample_system "BK9999"
     = (sample_system, None).
Proof.
  cbv zeta.
  destruct (C6_cancel_booking "2024-01-20T10:00:00" sample_system "BK0007")
    as (_ & _ & H3 & H4 & _).
  destruct (C6_cancel_booking "2024-01-20T10:00:00" sample_system "BK0003")
    as (_ & H2 & _).
  destruct (C6_cancel_booking "2024-01-20T10:00:00" sample_system "BK9999")
    as (H1 & _).
  destruct (H3 (nth 0 sample_ledger (sample_booking "" "" "" "" "" "" ""))
              eq_refl ltac:(discriminate))
    as (pre & post & _ & _ & Hr & Hs & Hc & _ & Hf & _).
  repeat match goal with |- _ /\ _ => split end.
  - rewrite Hr. reflexivity.
  - rewrite Hr. reflexivity.
  - rewrite Hf. reflexivity.
  - apply H4.
  - apply (H2 (nth 1 sample_ledger (sample_booking "" "" "" "" "" "" "")));
      reflexivity.
  - apply H1. reflexivity.
Defined.








(** C10.  [create_booking] changes nothing when it rejects: whenever it
    returns no record (for whichever reason), and also when it raises, the
    ledger and the file are what they were, so no booking id is used up
    and nothing is saved.  This covers each of the four checks.  The state
    changes only on the accepted path, where the new record is appended to
    the ledger and the ledger so extended is written to the file. *)
Theorem C10_create_booking_atomic (now : string) (s : System)
    (g e p room ci co : string) (n : Z) :
  let r := create_booking now s g e p room ci co n in
  (forall reason,
     snd r = Ok (None, reason) ->
     fst r = s /\ bookings (fst r) = bookings s /\ file (fst r) = file s
     /\ generate_booking_id (fst r) = generate_booking_id s)
  /\ (forall ex, snd r = Raise ex -> fst r = s)
  /\ (forall b msg,
        snd r = Ok (Some b, msg) ->
        bookings (fst r) = bookings s ++ [b]
        /\ file (fst r) = (bookings s ++ [b]) :: file s)
  /\ (fst r <> s -> exists b msg, snd r = Ok (Some b, msg))
  /\ (dict_mem rooms room = false -> fst r = s)
  /\ (parse_date ci = None \/ parse_date co = None -> fst r = s)
  /\ (forall nights,
        calculate_nights ci co = Some nights -> nights <= 0 -> fst r = s)
  /\ (forall available,
        available_rooms_for_range s room ci co = Ok available ->
        match available with
        | None => True
        | Some a => a <= 0
        end ->
        fst r = s).
Proof.
  cbv zeta.
  assert (Hrej : (forall b msg,
                    snd (create_booking now s g e p room ci co n)
                    <> Ok (Some b, msg)) ->
                 fst (create_booking now s g e p room ci co n) = s)
    by apply create_booking_not_accepted.
  repeat match goal with |- _ /\ _ => split end.
  - intros reason H. rewrite Hrej; [auto |]. rewrite H. discriminate.
  - intros ex H. apply Hrej. rewrite H. discriminate.
  - intros b msg H.
    destruct (create_booking now s g e p room ci co n) as [s' o] eqn:E.
    cbn [fst snd] in *. subst o.
    destruct (create_booking_accepted _ _ _ _ _ _ _ _ _ _ _ _ E)
      as (? & ? & ? & _ & _ & _ & _ & _ & _ & -> & _).
    split; reflexivity.
  - intros H.
    destruct (create_booking_state now s g e p room ci co n)
      as [Hs | (b & msg & Hr & _)]; [contradiction | eauto].
  - intros H. apply dict_mem_get in H. unfold create_booking.
    now rewrite H.
  - intros H. unfold create_booking.
    destruct (dict_get rooms room); [| reflexivity].
    replace (calculate_nights ci co) with (@None Z); [reflexivity |].
    unfold calculate_nights. destruct H as [H | H]; rewrite H;
      [| destruct (parse_date ci)]; reflexivity.
  - intros nights Hn Hle. unfold create_booking.
    destruct (dict_get rooms room); [| reflexivity].
    apply Z.leb_le in Hle. now rewrite Hn, Hle.
  - intros av Ha Hav. unfold create_booking.
    destruct (dict_get rooms room); [| reflexivity].
    destruct (calculate_nights ci co) as [nights |]; [| reflexivity].
    destruct (nights <=? 0); [reflexivity |].
    rewrite Ha. destruct av as [a |]; [| reflexivity].
    apply Z.leb_le in Hav. now rewrite Hav.
Qed.

(** A rejected request on the sample ledger, and an accepted one. *)
Lemma C10_create_booking_atomic_witness :
  fst (create_booking "2024-01-01T10:00:00" sample_system "Ann"
         "ann@example.com" "555-0101" "double" "2024-03-05" "2024-03-01" 2)
  = sample_system
  /\ List.length
       (bookings
          (fst (create_booking "2024-01-01T10:00:00" sample_system "Ann"
                  "ann@example.com" "555-0101" "double" "2024-03-01"
                  "2024-03-05" 2))) = 6%nat.
Proof.
  split.
  - destruct (C10_create_booking_atomic "2024-01-01T10:00:00" sample_system
                "Ann" "ann@example.com" "555-0101" "double" "2024-03-05"
                "2024-03-01" 2) as (H & _).
    apply (H "Check-out must be after check-in"). reflexivity.
  - destruct (C10_create_booking_atomic "2024-01-01T10:00:00" sample_system
                "Ann" "ann@example.com" "555-0101" "double" "2024-03-01"
                "2024-03-05" 2) as (_ & _ & H & _).
    destruct (create_booking _ _ _ _ _ _ _ _ _) as [s' [[[b |] msg] | ex]]
      eqn:E; try discriminate E.
    destruct (H b msg eq_refl) as [Hb _]. cbn [fst] in Hb |- *. rewrite Hb.
    rewrite length_app. reflexivity.
Defined.

(** * Further properties of the program *)

(** ** The order of dates and the day numbers *)

Lemma ltb_spec (a b : date) :
  Date.ltb a b = true <->
  year a < year b
  \/ (year a = year b
      /\ (month a < month b \/ (month a = month b /\ day a < day b))).
Proof.
  unfold Date.ltb.
  destruct (Z.ltb_spec (year a) (year b)), (Z.eqb_spec (year a) (year b)),
    (Z.ltb_spec (month a) (month b)), (Z.eqb_spec (month a) (month b)),
    (Z.ltb_spec (day a) (day b)); cbn; split; try discriminate; try lia;
    reflexivity.
Qed.

Lemma ltb_false_spec (a b : date) :
  Date.ltb a b = false <->
  year b < year a
  \/ (year a = year b
      /\ (month b < month a \/ (month a = month b /\ day b <= day a))).
Proof.
  rewrite <- not_true_iff_false, ltb_spec. lia.
Qed.

Ltac date_order :=
  repeat match goal with
         | H : Date.ltb _ _ = true |- _ => apply ltb_spec in H
         | H : Date.ltb _ _ = false |- _ => apply ltb_false_spec in H
         | H : Date.lt _ _ |- _ => apply ltb_spec in H
         | |- Date.ltb _ _ = true => apply ltb_spec
         | |- Date.ltb _ _ = false => apply ltb_false_spec
         | |- Date.lt _ _ => apply ltb_spec
         end;
  try lia.

Lemma ltb_trans (a b c : date) :
  Date.ltb a b = true -> Date.ltb b c = true -> Date.ltb a c = true.
Proof. intros H1 H2. date_order. Qed.

Lemma ltb_irrefl (a : date) : Date.ltb a a = false.
Proof. date_order. Qed.

Lemma ltb_total (a b : date) :
  Date.ltb a b = true \/ a = b \/ Date.ltb b a = true.
Proof.
  destruct (Date.ltb a b) eqn:E1; [now left |].
  destruct (Date.ltb b a) eqn:E2; [now right; right |].
  right; left. date_order. destruct a, b; cbn in *. f_equal; lia.
Qed.

Ltac month_tables :=
  repeat match goal with
         | |- context [nth ?n ?l ?d] =>
             let v := eval vm_compute in (nth n l d) in
             change (nth n l d) with v
         | |- context [Z.eqb ?a ?b] =>
             let v := eval vm_compute in (Z.eqb a b) in
             change (Z.eqb a b) with v
         | |- context [Z.ltb ?a ?b] =>
             let v := eval vm_compute in (Z.ltb a b) in
             change (Z.ltb a b) with v
         end;
  cbn [andb orb negb].

(** One year after another: 365 days, and one more in a leap year. *)
Lemma days_before_year_succ (y : Z) :
  Date.days_before_year (y + 1)
  = Date.days_before_year y + 365 + (if Date.is_leap y then 1 else 0).
Proof.
  unfold Date.days_before_year, Date.is_leap. cbv zeta.
  replace (y + 1 - 1) with y by lia.
  destruct (y mod 4 =? 0) eqn:E4; destruct (y mod 100 =? 0) eqn:E100;
    destruct (y mod 400 =? 0) eqn:E400; cbn [andb orb negb];
    rewrite ?Z.eqb_eq, ?Z.eqb_neq in *;
    Z.to_euclidean_division_equations; lia.
Qed.

Lemma days_before_year_mono (y1 y2 : Z) :
  y1 < y2 ->
  Date.days_before_year y1 + 365 + (if Date.is_leap y1 then 1 else 0)
  <= Date.days_before_year y2.
Proof.
  intros H. rewrite <- days_before_year_succ.
  unfold Date.days_before_year. cbv zeta.
  Z.to_euclidean_division_equations; lia.
Qed.

(** The day of the year of a real date lies in the year. *)
Lemma day_of_year_bounds (y m d : Z) :
  1 <= m <= 12 -> 1 <= d <= Date.days_in_month y m ->
  1 <= Date.days_before_month y m + d
  <= 365 + (if Date.is_leap y then 1 else 0).
Proof.
  intros Hm. unfold Date.days_in_month, Date.days_before_month.
  enum_range m 1 12%nat; destruct (Date.is_leap y); month_tables; lia.
Qed.

(** Within a year the day of the year grows with the month. *)
Lemma day_of_year_month (y m1 m2 d1 d2 : Z) :
  1 <= m1 -> m1 < m2 -> m2 <= 12 ->
  d1 <= Date.days_in_month y m1 -> 1 <= d2 ->
  Date.days_before_month y m1 + d1 < Date.days_before_month y m2 + d2.
Proof.
  intros H1 H12 H2. unfold Date.days_in_month, Date.days_before_month.
  enum_range m1 1 11%nat; enum_range m2 2 11%nat;
    try lia; destruct (Date.is_leap y); month_tables; lia.
Qed.

Lemma check_fields_spec (y m d : Z) :
  Date.check_fields y m d = true <->
  1 <= y <= 9999 /\ 1 <= m <= 12 /\ 1 <= d <= Date.days_in_month y m.
Proof.
  unfold Date.check_fields.
  rewrite !andb_true_iff, !Z.leb_le. tauto.
Qed.

Lemma toordinal_lt (a b : date) :
  real_date a -> real_date b ->
  Date.ltb a b = true -> Date.toordinal a < Date.toordinal b.
Proof.
  destruct a as [ya ma da], b as [yb mb db].
  unfold real_date, Date.toordinal. cbn [year month day].
  rewrite !check_fields_spec. intros (Hya & Hma & Hda) (Hyb & Hmb & Hdb) H.
  apply ltb_spec in H. cbn [year month day] in H.
  pose proof (day_of_year_bounds ya ma da Hma Hda).
  pose proof (day_of_year_bounds yb mb db Hmb Hdb).
  destruct H as [H | [-> [H | [-> H]]]].
  - pose proof (days_before_year_mono ya yb H). lia.
  - pose proof (day_of_year_month yb ma mb da db). lia.
  - lia.
Qed.

(** On real dates the order [<] of dates is the order of day numbers. *)
Lemma ltb_toordinal (a b : date) :
  real_date a -> real_date b ->
  Date.ltb a b = (Date.toordinal a <? Date.toordinal b).
Proof.
  intros Ha Hb.
  destruct (ltb_total a b) as [H | [-> | H]].
  - rewrite H. symmetry. apply Z.ltb_lt. now apply toordinal_lt.
  - rewrite ltb_irrefl. symmetry. apply Z.ltb_irrefl.
  - pose proof (toordinal_lt b a Hb Ha H).
    replace (Date.ltb a b) with false.
    + symmetry. apply Z.ltb_ge. lia.
    + symmetry. date_order.
Qed.

(** ** What the counting loop returns when it returns *)

(** Whenever the loop completes, it has counted the bookings the
    specification counts: a booking with a stored text that is no date is
    passed over without a comparison only when it cannot overlap. *)
Lemma count_loop_ok (room : string) (q_in q_out : date) (bs : list Booking) :
  forall count n,
    count_loop room q_in q_out bs count = Ok n ->
    n = count
        + Z.of_nat (List.length (filter (counted room q_in q_out) bs)).
Proof.
  induction bs as [| b bs IH]; intros count n; cbn [count_loop filter].
  - intros H; injection H as <-. cbn. lia.
  - unfold counted at 1.
    destruct (String.eqb (room_type b) room); cbn [negb andb]; [| apply IH].
    destruct (String.eqb (status b) "confirmed"); cbn [negb andb];
      [| apply IH].
    unfold dates_overlap, py_lt, overlaps.
    destruct (parse_date (check_out b)) as [b_out |];
      [| destruct (parse_date (check_in b)); discriminate].
    cbn [bind]. destruct (Date.ltb q_in b_out) eqn:E1.
    + destruct (parse_date (check_in b)) as [b_in |]; [| discriminate].
      cbn [bind]. rewrite andb_true_r.
      destruct (Date.ltb b_in q_out); intros H; apply IH in H;
        cbn [List.length]; lia.
    + intros H. apply IH in H.
      destruct (parse_date (check_in b)); rewrite ?andb_false_r in *;
        exact H.
Qed.

Lemma booked_count_ok (s : System) (room ci co : string) (n : Z) :
  booked_count_for_range s room ci co = Ok (Some n) ->
  exists q_in q_out,
    parse_date ci = Some q_in /\ parse_date co = Some q_out
    /\ n = Z.of_nat (List.length
                       (filter (counted room q_in q_out) (bookings s))).
Proof.
  unfold booked_count_for_range.
  destruct (parse_date ci) as [q_in |]; [| discriminate].
  destruct (parse_date co) as [q_out |]; [| discriminate].
  destruct (count_loop room q_in q_out (bookings s) 0) as [k | ex] eqn:E;
    [| discriminate].
  cbn [bind]. intros H; injection H as <-.
  apply count_loop_ok in E. exists q_in, q_out. repeat split; auto.
Qed.

Lemma available_ok (s : System) (room ci co : string) (a : Z) :
  available_rooms_for_range s room ci co = Ok (Some a) ->
  exists info q_in q_out,
    dict_get rooms room = Some info
    /\ parse_date ci = Some q_in /\ parse_date co = Some q_out
    /\ a = Z.max 0
             (total info
              - Z.of_nat (List.length
                            (filter (counted room q_in q_out)
                               (bookings s)))).
Proof.
  unfold available_rooms_for_range.
  destruct (dict_get rooms room) as [info |]; [| discriminate].
  destruct (booked_count_for_range s room ci co) as [[n |] | ex] eqn:E;
    try discriminate.
  cbn [bind]. intros H; injection H as <-.
  destruct (booked_count_ok _ _ _ _ _ E) as (q_in & q_out & Hi & Ho & ->).
  exists info, q_in, q_out. auto.
Qed.

Lemma filter_length_le {A} (f g : A -> bool) (l : list A) :
  (forall x, In x l -> f x = true -> g x = true) ->
  (List.length (filter f l) <= List.length (filter g l))%nat.
Proof.
  induction l as [| x l IH]; intros H; [reflexivity |].
  assert (IH' : (List.length (filter f l) <= List.length (filter g l))%nat)
    by (apply IH; intros y Hy; apply H; now right).
  cbn [filter]. destruct (f x) eqn:Ef.
  - rewrite (H x (or_introl eq_refl) Ef). cbn [List.length]. lia.
  - destruct (g x); cbn [List.length]; lia.
Qed.

Lemma filter_length_app {A} (f : A -> bool) (l l' : list A) :
  List.length (filter f (l ++ l'))
  = (List.length (filter f l) + List.length (filter f l'))%nat.
Proof. now rewrite filter_app, length_app. Qed.

(** A booking that occupies a night of the query is counted for it. *)
Lemma occupies_counted (room : string) (D q_in q_out : date) (b : Booking) :
  within D q_in q_out = true ->
  occupies room D b = true -> counted room q_in q_out b = true.
Proof.
  unfold occupies, counted, within, overlaps. intros Hq.
  destruct (String.eqb (room_type b) room); [| discriminate].
  destruct (String.eqb (status b) "confirmed"); [| discriminate].
  destruct (parse_date (check_in b)) as [b_in |]; [| discriminate].
  destruct (parse_date (check_out b)) as [b_out |]; [| discriminate].
  cbn [andb]. intros Hb.
  apply andb_true_iff in Hq as [Hq1 Hq2], Hb as [Hb1 Hb2].
  apply negb_true_iff in Hq1, Hb1.
  apply andb_true_iff. split; date_order.
Qed.

(** ** Nights and the order of dates *)

Lemma parse_date_real (s : string) (d : date) :
  parse_date s = Some d -> real_date d.
Proof. intros H. now apply parse_date_sound in H. Qed.

Lemma nights_order (ci co : string) (n : Z) :
  calculate_nights ci co = Some n ->
  exists d_in d_out,
    parse_date ci = Some d_in /\ parse_date co = Some d_out
    /\ (0 < n <-> Date.lt d_in d_out)
    /\ (n = 0 <-> d_in = d_out)
    /\ (n < 0 <-> Date.lt d_out d_in).
Proof.
  unfold calculate_nights.
  destruct (parse_date ci) as [a |] eqn:Ea; [| discriminate].
  destruct (parse_date co) as [b |] eqn:Eb; [| discriminate].
  intros H; injection H as <-. exists a, b.
  apply parse_date_real in Ea, Eb.
  pose proof (ltb_toordinal a b Ea Eb) as Hab.
  pose proof (ltb_toordinal b a Eb Ea) as Hba.
  unfold Date.lt, Date.sub_days.
  repeat split; auto.
  - intros H. rewrite Hab. apply Z.ltb_lt. lia.
  - intros H. rewrite Hab in H. apply Z.ltb_lt in H. lia.
  - intros H. destruct (ltb_total a b) as [L | [E | L]]; auto.
    + rewrite Hab in L. apply Z.ltb_lt in L. lia.
    + rewrite Hba in L. apply Z.ltb_lt in L. lia.
  - intros ->. lia.
  - intros H. rewrite Hba. apply Z.ltb_lt. lia.
  - intros H. rewrite Hba in H. apply Z.ltb_lt in H. lia.
Qed.

(** X1.  When [calculate_nights] returns a number, both texts parse, and
    the number is positive exactly when the check-in date is before the
    check-out date in the order [dates_overlap] compares dates with, zero
    exactly when the two dates are the same, and negative exactly when
    the check-out date is the earlier one.  So the check [nights <= 0]
    of [create_booking] rejects exactly the stays that do not end after
    they start. *)
Theorem calculate_nights_order (ci co : string) (n : Z) :
  calculate_nights ci co = Some n ->
  exists d_in d_out,
    parse_date ci = Some d_in /\ parse_date co = Some d_out
    /\ (0 < n <-> Date.lt d_in d_out)
    /\ (n = 0 <-> d_in = d_out)
    /\ (n < 0 <-> Date.lt d_out d_in).
Proof. exact (nights_order ci co n). Qed.

Lemma calculate_nights_order_witness :
  exists d_in d_out,
    parse_date "2024-02-28" = Some d_in /\ parse_date "2024-03-01" = Some d_out
    /\ (0 < 2 <-> Date.lt d_in d_out)
    /\ (2 = 0 <-> d_in = d_out)
    /\ (2 < 0 <-> Date.lt d_out d_in).
Proof.
  apply (calculate_nights_order "2024-02-28" "2024-03-01" 2). reflexivity.
Defined.

(** ** No room type is oversold *)

Lemma never_oversold_empty : never_oversold [].
Proof.
  intros room info D H. unfold occupancy. cbn.
  now apply rooms_total_nonneg in H.
Qed.

Lemma occupies_new_booking now s g e p room ci co n info nights room' D :
  occupies room' D (new_booking now s g e p room ci co n info nights) = true ->
  room' = room
  /\ exists q_in q_out, parse_date ci = Some q_in /\ parse_date co = Some q_out
                        /\ within D q_in q_out = true.
Proof.
  unfold occupies, new_booking. cbn [room_type status check_in check_out].
  destruct (String.eqb room room') eqn:E; [| discriminate].
  apply String.eqb_eq in E. cbn [andb].
  destruct (parse_date ci) as [q_in |]; [| discriminate].
  destruct (parse_date co) as [q_out |]; [| discriminate].
  intros H. split; [auto |]. exists q_in, q_out. auto.
Qed.

Lemma occupies_mark_cancelled now room D b :
  occupies room D (mark_cancelled now b) = false.
Proof.
  unfold occupies, mark_cancelled. cbn [status room_type].
  now rewrite andb_false_r.
Qed.

Lemma never_oversold_step (s : System) :
  never_oversold (bookings s) ->
  (forall now g e p room ci co n,
     never_oversold
       (bookings (fst (create_booking now s g e p room ci co n))))
  /\ (forall now id,
        never_oversold (bookings (fst (cancel_booking now s id)))).
Proof.
  intros Hs. split.
  - intros now g e p room ci co n.
    destruct (create_booking_state now s g e p room ci co n)
      as [-> | (b & msg & Hr & ->)]; [exact Hs |].
    destruct (create_booking now s g e p room ci co n) as [s' o] eqn:E.
    cbn [snd] in Hr. subst o.
    destruct (create_booking_accepted _ _ _ _ _ _ _ _ _ _ _ _ E)
      as (info & nights & av & Hi & Hn & Hpos & Hav & Havpos & Hb & _).
    intros room' info' D Hi'. unfold occupancy, appended, save_bookings.
    cbn [bookings]. rewrite filter_length_app. cbn [filter].
    destruct (occupies room' D b) eqn:Eo.
    2: { specialize (Hs room' info' D Hi'). unfold occupancy in Hs.
         cbn [List.length]. lia. }
    rewrite Hb in Eo.
    apply occupies_new_booking in Eo as (-> & q_in & q_out & Hqi & Hqo & Hw).
    rewrite Hi in Hi'. injection Hi' as <-.
    destruct (available_ok _ _ _ _ _ Hav)
      as (info2 & q_in' & q_out' & Hi2 & Hqi' & Hqo' & Ha).
    rewrite Hi in Hi2. injection Hi2 as <-.
    rewrite Hqi in Hqi'. injection Hqi' as <-.
    rewrite Hqo in Hqo'. injection Hqo' as <-.
    pose proof (filter_length_le (occupies room D) (counted room q_in q_out)
                  (bookings s)
                  (fun x _ => occupies_counted room D q_in q_out x Hw)).
    cbn [List.length]. lia.
  - intros now id.
    destruct (cancel_booking_state now s id)
      as [-> | (b & pre & post & Hbs & ->)]; [exact Hs |].
    intros room info D Hi. specialize (Hs room info D Hi).
    unfold occupancy in *. cbn [save_bookings bookings]. rewrite Hbs in Hs.
    rewrite filter_length_app in *. cbn [filter] in *.
    rewrite occupies_mark_cancelled.
    destruct (occupies room D b); cbn [List.length] in *; lia.
Qed.



(** ** Booking ids stay unique *)

Lemma generate_booking_id_fresh (s : System) (b : Booking) :
  In b (bookings s) -> booking_id b <> generate_booking_id s.
Proof.
  intros Hb Heq.
  pose proof (max_suffix_nonneg s) as Hm.
  assert (Hs : suffix_number (bookings s) (max_suffix (bookings s) 0 + 1)).
  { exists b, (PyInt.format_04d (max_suffix (bookings s) 0 + 1)).
    repeat split; auto. apply int_format_04d. lia. }
  apply (max_suffix_upper _ 0) in Hs. lia.
Qed.

Lemma ids_unique_step (s : System) :
  NoDup (map booking_id (bookings s)) ->
  (forall now g e p room ci co n,
     NoDup (map booking_id
              (bookings (fst (create_booking now s g e p room ci co n)))))
  /\ (forall now id,
        NoDup (map booking_id (bookings (fst (cancel_booking now s id))))).
Proof.
  intros Hs. split.
  - intros now g e p room ci co n.
    destruct (create_booking_state now s g e p room ci co n)
      as [-> | (b & msg & Hr & ->)]; [exact Hs |].
    destruct (create_booking now s g e p room ci co n) as [s' o] eqn:E.
    cbn [snd] in Hr. subst o.
    destruct (create_booking_accepted _ _ _ _ _ _ _ _ _ _ _ _ E)
      as (info & nights & av & _ & _ & _ & _ & _ & Hb & _).
    unfold appended, save_bookings. cbn [bookings].
    rewrite map_app. cbn [map].
    apply NoDup_app. repeat split; auto.
    + constructor; [intros [] | constructor].
    + intros x Hx [<- | []]. apply in_map_iff in Hx as (b' & Hid & Hin).
      apply (generate_booking_id_fresh s b' Hin). rewrite Hid, Hb.
      reflexivity.
  - intros now id. now rewrite cancel_booking_ids.
Qed.



(** ** Ids are handed out in sequence *)

Lemma reachable_ids_max (s : System) :
  reachable s ->
  map booking_id (bookings s)
  = map nth_id (seq 1 (List.length (bookings s)))
  /\ max_suffix (bookings s) 0 = Z.of_nat (List.length (bookings s)).
Proof.
  induction 1 as [| now s g e p room ci co n _ [IH1 IH2]
                  | now s id _ [IH1 IH2]].
  - split; reflexivity.
  - destruct (create_booking_state now s g e p room ci co n)
      as [-> | (b & msg & Hr & ->)]; [now split |].
    destruct (create_booking now s g e p room ci co n) as [s' o] eqn:E.
    cbn [snd] in Hr. subst o.
    destruct (create_booking_accepted _ _ _ _ _ _ _ _ _ _ _ _ E)
      as (info & nights & av & _ & _ & _ & _ & _ & Hb & _).
    assert (Hid : booking_id b = generate_booking_id s)
      by (rewrite Hb; reflexivity).
    split.
    + unfold appended, save_bookings. cbn [bookings].
      rewrite length_app, map_app. cbn [List.length map].
      replace (List.length (bookings s) + 1)%nat
        with (S (List.length (bookings s))) by lia.
      rewrite seq_S, map_app, <- IH1. cbn [map]. do 2 f_equal.
      rewrite Hid. unfold generate_booking_id, nth_id. rewrite IH2.
      do 2 f_equal. lia.
    + rewrite max_suffix_appended by exact Hid.
      unfold appended, save_bookings. cbn [bookings].
      rewrite length_app, IH2. cbn [List.length]. lia.
  - pose proof (cancel_booking_ids now s id) as Hc.
    assert (Hl : List.length (bookings (fst (cancel_booking now s id)))
                 = List.length (bookings s)).
    { rewrite <- (length_map booking_id), Hc. apply length_map. }
    split.
    + now rewrite Hc, Hl.
    + rewrite (max_suffix_ids _ _ Hc), Hl. exact IH2.
Qed.

(** X4.  Starting without a file, the bookings get the ids "BK0001",
    "BK0002", ... in the order they are made: in every state the program
    can reach, the [k]-th booking of the ledger has the id "BK" followed
    by [k] padded to four digits, whatever was cancelled or rejected in
    between. *)
Theorem reachable_ids_in_sequence (s : System) :
  reachable s ->
  map booking_id (bookings s) = map nth_id (seq 1 (List.length (bookings s))).
Proof. intros H. now apply reachable_ids_max. Qed.

Lemma reachable_create_many (k : nat) : reachable (create_many k empty_system).
Proof.
  induction k as [| k IH]; [constructor |].
  cbn [create_many]. now constructor.
Qed.

Lemma reachable_ids_in_sequence_witness :
  map booking_id (bookings (create_many 3 empty_system))
  = map nth_id (seq 1 (List.length (bookings (create_many 3 empty_system)))).
Proof.
  apply (reachable_ids_in_sequence (create_many 3 empty_system)).
  apply reachable_create_many.
Defined.

(** ** The fields of the bookings the program makes *)

Lemma booking_ok_new now s g e p room ci co n info k :
  dict_get rooms room = Some info ->
  calculate_nights ci co = Some k -> 0 < k ->
  booking_ok (new_booking now s g e p room ci co n info k).
Proof.
  intros Hi Hn Hpos.
  destruct (nights_order ci co k Hn)
    as (d_in & d_out & Hdi & Hdo & Hlt & _).
  exists info, d_in, d_out.
  unfold new_booking.
  cbn [room_type check_in check_out nights total_price status cancelled_at].
  repeat split; auto.
  - now apply Hlt.
  - unfold calculate_nights in Hn. rewrite Hdi, Hdo in Hn.
    now injection Hn as <-.
Qed.

Lemma booking_ok_cancelled now b :
  booking_ok b -> booking_ok (mark_cancelled now b).
Proof.
  intros (info & d_in & d_out & H1 & H2 & H3 & H4 & H5 & H6 & H7 & _).
  exists info, d_in, d_out. unfold mark_cancelled.
  cbn [room_type check_in check_out nights total_price status cancelled_at].
  repeat split; auto. right. split; [reflexivity | discriminate].
Qed.

Lemma booking_ok_step (s : System) :
  Forall booking_ok (bookings s) ->
  (forall now g e p room ci co n,
     Forall booking_ok
       (bookings (fst (create_booking now s g e p room ci co n))))
  /\ (forall now id,
        Forall booking_ok (bookings (fst (cancel_booking now s id)))).
Proof.
  intros Hs. split.
  - intros now g e p room ci co n.
    destruct (create_booking_state now s g e p room ci co n)
      as [-> | (b & msg & Hr & ->)]; [exact Hs |].
    destruct (create_booking now s g e p room ci co n) as [s' o] eqn:E.
    cbn [snd] in Hr. subst o.
    destruct (create_booking_accepted _ _ _ _ _ _ _ _ _ _ _ _ E)
      as (info & nights & av & Hi & Hn & Hpos & _ & _ & -> & _).
    unfold appended, save_bookings. cbn [bookings].
    apply Forall_app. split; [exact Hs |].
    constructor; [| constructor]. now apply booking_ok_new.
  - intros now id.
    destruct (cancel_booking_state now s id)
      as [-> | (b & pre & post & Hbs & ->)]; [exact Hs |].
    cbn [save_bookings bookings]. rewrite Hbs in Hs.
    apply Forall_app in Hs as [Hp Hq]. apply Forall_app. split; [exact Hp |].
    inversion Hq as [| ? ? Hb Hpost]; subst.
    constructor; [now apply booking_ok_cancelled | exact Hpost].
Qed.



(** ** Errors that never come, and errors that can *)

(** X6.  The reason "Error calculating availability" is never returned:
    whatever the ledger and the arguments, [create_booking] asks for the
    availability only after the room type was found and both dates
    parsed, and then the availability is a number (or the comparison
    with a stored text that is no date raises). *)
Theorem availability_error_never_returned (now : string) (s : System)
    (g e p room ci co : string) (n : Z) (o : option Booking) :
  snd (create_booking now s g e p room ci co n)
  <> Ok (o, "Error calculating availability").
Proof.
  unfold create_booking.
  destruct (dict_get rooms room) as [info |] eqn:Hi; [| discriminate].
  unfold calculate_nights, available_rooms_for_range,
    booked_count_for_range.
  rewrite Hi.
  destruct (parse_date ci) as [q_in |]; [| discriminate].
  destruct (parse_date co) as [q_out |]; [| discriminate].
  destruct (_ <=? 0); [discriminate |].
  destruct (count_loop room q_in q_out (bookings s) 0) as [k | ex];
    cbn [bind snd]; [| discriminate].
  destruct (_ <=? 0); cbn [snd]; discriminate.
Qed.

Lemma no_exception_wf (s : System) :
  well_formed (bookings s) ->
  forall room ci co,
    (exists r, booked_count_for_range s room ci co = Ok r)
    /\ (exists r, available_rooms_for_range s room ci co = Ok r)
    /\ forall now g e p n,
         exists o msg,
           snd (create_booking now s g e p room ci co n) = Ok (o, msg).
Proof.
  intros Hw room ci co.
  assert (Hb : exists r, booked_count_for_range s room ci co = Ok r).
  { unfold booked_count_for_range.
    destruct (parse_date ci) as [q_in |]; [| eauto].
    destruct (parse_date co) as [q_out |]; [| eauto].
    rewrite count_loop_filter by (now apply well_formed_dated).
    cbn [bind]. eauto. }
  assert (Ha : exists r, available_rooms_for_range s room ci co = Ok r).
  { unfold available_rooms_for_range.
    destruct (dict_get rooms room); [| eauto].
    destruct Hb as [[k |] ->]; cbn [bind]; eauto. }
  split; [exact Hb |]. split; [exact Ha |].
  intros now g e p n. unfold create_booking.
  destruct (dict_get rooms room); [| cbn [snd]; eauto].
  destruct (calculate_nights ci co) as [k |]; [| cbn [snd]; eauto].
  destruct (k <=? 0); [cbn [snd]; eauto |].
  destruct Ha as [[a |] ->]; [| cbn [snd]; eauto].
  destruct (a <=? 0); cbn [snd]; eauto.
Qed.



(** ** Availability for a part of a stay *)

Lemma counted_wider room (q_in q_out w_in w_out : date) (b : Booking) :
  Date.ltb q_in w_in = false -> Date.ltb w_out q_out = false ->
  counted room q_in q_out b = true -> counted room w_in w_out b = true.
Proof.
  unfold counted, overlaps. intros H1 H2.
  destruct (String.eqb (room_type b) room); [| discriminate].
  destruct (String.eqb (status b) "confirmed"); [| discriminate].
  destruct (parse_date (check_in b)) as [b_in |]; [| discriminate].
  destruct (parse_date (check_out b)) as [b_out |]; [| discriminate].
  cbn [andb]. intros H. apply andb_true_iff in H as [Ha Hb].
  apply andb_true_iff. split; date_order.
Qed.

(** X8.  Rooms free for a stay are free for every part of it: when the
    interval of one query lies inside the interval of another, and
    [available_rooms_for_range] returns a number for both, the number for
    the inner interval is at least the number for the outer one (and
    the count of bookings at most the count for the outer one). *)
Theorem availability_of_part (s : System) (room ci co wi wo : string)
    (q_in q_out w_in w_out : date) (a a' : Z) :
  parse_date ci = Some q_in -> parse_date co = Some q_out ->
  parse_date wi = Some w_in -> parse_date wo = Some w_out ->
  Date.ltb q_in w_in = false -> Date.ltb w_out q_out = false ->
  available_rooms_for_range s room ci co = Ok (Some a) ->
  available_rooms_for_range s room wi wo = Ok (Some a') ->
  a' <= a.
Proof.
  intros Hci Hco Hwi Hwo H1 H2 Ha Ha'.
  destruct (available_ok _ _ _ _ _ Ha)
    as (info & x1 & x2 & Hi & E1 & E2 & ->).
  destruct (available_ok _ _ _ _ _ Ha')
    as (info' & y1 & y2 & Hi' & E3 & E4 & ->).
  rewrite Hi in Hi'. injection Hi' as <-.
  rewrite Hci in E1. rewrite Hco in E2. rewrite Hwi in E3.
  rewrite Hwo in E4.
  injection E1 as <-. injection E2 as <-.
  injection E3 as <-. injection E4 as <-.
  pose proof (filter_length_le (counted room q_in q_out)
                (counted room w_in w_out) (bookings s)
                (fun x _ => counted_wider room _ _ _ _ x H1 H2)).
  lia.
Qed.

Lemma availability_of_part_witness :
  available_rooms_for_range sample_system "single" "2024-02-06" "2024-02-07"
  = Ok (Some 9)
  /\ available_rooms_for_range sample_system "single" "2024-02-03"
       "2024-02-08" = Ok (Some 8)
  /\ 8 <= 9.
Proof.
  split; [reflexivity |]. split; [reflexivity |].
  apply (availability_of_part sample_system "single"
           "2024-02-06" "2024-02-07" "2024-02-03" "2024-02-08"
           (mkdate 2024 2 6) (mkdate 2024 2 7) (mkdate 2024 2 3)
           (mkdate 2024 2 8) 9 8); reflexivity.
Defined.

(** ** What a new booking and a cancellation do to the count *)

Lemma count_loop_app room q_in q_out (l l' : list Booking) (c : Z) :
  count_loop room q_in q_out (l ++ l') c
  = (n <- count_loop room q_in q_out l c ;; count_loop room q_in q_out l' n).
Proof.
  revert c; induction l as [| b l IH]; intros c; [reflexivity |].
  cbn [app count_loop].
  destruct (negb (String.eqb (room_type b) room)); [apply IH |].
  destruct (negb (String.eqb (status b) "confirmed")); [apply IH |].
  destruct (dates_overlap _ _ _ _) as [ov | ex]; cbn [bind];
    [apply IH | reflexivity].
Qed.

Lemma count_loop_shift room q_in q_out (l : list Booking) :
  forall c n k,
    count_loop room q_in q_out l c = Ok n ->
    count_loop room q_in q_out l (c + k) = Ok (n + k).
Proof.
  induction l as [| b l IH]; intros c n k; cbn [count_loop].
  - intros H; injection H as <-. reflexivity.
  - destruct (negb (String.eqb (room_type b) room)); [apply IH |].
    destruct (negb (String.eqb (status b) "confirmed")); [apply IH |].
    destruct (dates_overlap _ _ _ _) as [[] | ex]; cbn [bind];
      try discriminate; intros H.
    + replace (c + k + 1) with (c + 1 + k) by lia. now apply IH.
    + now apply IH.
Qed.

Lemma counted_new_booking now s g e p room ci co n info k q_in q_out :
  parse_date ci = Some q_in -> parse_date co = Some q_out ->
  forall room' w_in w_out,
    counted room' w_in w_out (new_booking now s g e p room ci co n info k)
    = String.eqb room room' && overlaps q_in q_out w_in w_out.
Proof.
  intros Hi Ho room' w_in w_out. unfold counted, new_booking.
  cbn [room_type status check_in check_out]. rewrite Hi, Ho.
  cbn [String.eqb Ascii.eqb Bool.eqb]. now rewrite andb_true_r.
Qed.

(** X9.  An accepted booking takes exactly one room: after
    [create_booking] accepts a request, [available_rooms_for_range] for
    the same room type and dates returns one less than it returned
    before, and for every query about another room type it returns what
    it returned before. *)
Theorem accepted_booking_takes_one_room (now : string) (s s' : System)
    (g e p room ci co : string) (n : Z) (b : Booking) (msg : string) :
  create_booking now s g e p room ci co n = (s', Ok (Some b, msg)) ->
  (exists a,
     0 < a
     /\ available_rooms_for_range s room ci co = Ok (Some a)
     /\ available_rooms_for_range s' room ci co = Ok (Some (a - 1)))
  /\ (forall room' wi wo,
        room' <> room ->
        available_rooms_for_range s' room' wi wo
        = available_rooms_for_range s room' wi wo).
Proof.
  intros E.
  destruct (create_booking_accepted _ _ _ _ _ _ _ _ _ _ _ _ E)
    as (info & k & a & Hi & Hn & Hk & Ha & Hpos & -> & -> & _).
  destruct (nights_order ci co k Hn)
    as (q_in & q_out & Hci & Hco & Hlt & _).
  apply Hlt in Hk. unfold Date.lt in Hk.
  split.
  - exists a. split; [exact Hpos |]. split; [exact Ha |].
    revert Ha. unfold available_rooms_for_range, booked_count_for_range.
    rewrite Hi, Hci, Hco. unfold appended, save_bookings. cbn [bookings].
    rewrite count_loop_app.
    destruct (count_loop room q_in q_out (bookings s) 0) as [c | ex] eqn:Ec;
      cbn [bind]; [| discriminate].
    intros H; injection H as H.
    cbn [count_loop]. unfold new_booking at 1 2 3 4.
    cbn [room_type status check_in check_out].
    rewrite String.eqb_refl, Hci, Hco, dates_overlap_some.
    cbn [negb String.eqb Ascii.eqb Bool.eqb bind].
    unfold overlaps. rewrite Hk. cbn [andb]. do 2 f_equal. lia.
  - intros room' wi wo Hne.
    unfold available_rooms_for_range, booked_count_for_range.
    unfold appended, save_bookings. cbn [bookings].
    destruct (dict_get rooms room'); [| reflexivity].
    destruct (parse_date wi) as [w_in |]; [| reflexivity].
    destruct (parse_date wo) as [w_out |]; [| reflexivity].
    rewrite count_loop_app.
    destruct (count_loop room' w_in w_out (bookings s) 0) as [c | ex];
      cbn [bind]; [| reflexivity].
    cbn [count_loop]. unfold new_booking at 1.
    cbn [room_type].
    replace (String.eqb room room') with false; [reflexivity |].
    symmetry. apply String.eqb_neq. congruence.
Qed.

Lemma sample_new_accepted :
  create_booking "2024-01-01T10:00:00" sample_system "Ann" "ann@example.com"
    "555-0101" "double" "2024-03-01" "2024-03-05" 2
  = (appended sample_system sample_new,
     Ok (Some sample_new, "Booking created successfully")).
Proof. vm_compute. reflexivity. Qed.

Lemma accepted_booking_takes_one_room_witness :
  exists a,
    0 < a
    /\ available_rooms_for_range sample_system "double" "2024-03-01"
         "2024-03-05" = Ok (Some a)
    /\ available_rooms_for_range (appended sample_system sample_new)
         "double" "2024-03-01" "2024-03-05" = Ok (Some (a - 1)).
Proof.
  exact (proj1 (accepted_booking_takes_one_room _ _ _ _ _ _ _ _ _ _ _ _
                  sample_new_accepted)).
Defined.

Lemma bind_ok {A B} (r : result A) (k : A -> result B) (y : B) :
  bind r k = Ok y -> exists x, r = Ok x /\ k x = Ok y.
Proof. destruct r as [x | ex]; cbn; [eauto | discriminate]. Qed.

Lemma count_loop_cancelled now room q_in q_out (b : Booking) (c : Z) :
  count_loop room q_in q_out [mark_cancelled now b] c = Ok c.
Proof.
  cbn [count_loop]. unfold mark_cancelled. cbn [room_type status].
  destruct (negb (String.eqb (room_type b) room)); reflexivity.
Qed.

(** X10.  A cancellation gives the room back: when a confirmed booking is
    cancelled, every count [booked_count_for_range] returned before is
    one less afterwards if the booking was among those counted, and the
    same otherwise; the number of available rooms does not go down and
    goes up by at most one. *)
Theorem cancellation_frees_the_room (now : string) (s : System)
    (id : string) (b : Booking) (room ci co : string) (n : Z) :
  get_booking s id = Some b -> status b = "confirmed" ->
  booked_count_for_range s room ci co = Ok (Some n) ->
  exists q_in q_out,
    parse_date ci = Some q_in /\ parse_date co = Some q_out
    /\ booked_count_for_range (fst (cancel_booking now s id)) room ci co
       = Ok (Some (n - (if counted room q_in q_out b then 1 else 0)))
    /\ forall a,
         available_rooms_for_range s room ci co = Ok (Some a) ->
         exists a',
           available_rooms_for_range (fst (cancel_booking now s id)) room
             ci co = Ok (Some a')
           /\ a <= a' <= a + 1.
Proof.
  intros Hg Hs Hn.
  destruct (cancel_loop_found now id _ b Hg)
    as (pre & post & Hbs & _ & _ & Hc).
  assert (Hs' : fst (cancel_booking now s id)
                = save_bookings
                    (mkSystem (pre ++ mark_cancelled now b :: post) (file s))).
  { unfold cancel_booking. rewrite Hc, Hs. reflexivity. }
  rewrite Hs'. clear Hs' Hc.
  revert Hn. unfold available_rooms_for_range, booked_count_for_range.
  cbn [save_bookings bookings]. rewrite Hbs.
  destruct (parse_date ci) as [q_in |]; [| discriminate].
  destruct (parse_date co) as [q_out |]; [| discriminate].
  intros Hn. exists q_in, q_out. split; [reflexivity |].
  split; [reflexivity |].
  apply bind_ok in Hn as (m & Hm & Hn). injection Hn as <-.
  change (pre ++ b :: post) with (pre ++ [b] ++ post) in Hm.
  rewrite count_loop_app in Hm.
  apply bind_ok in Hm as (c1 & H1 & Hm).
  rewrite count_loop_app in Hm.
  apply bind_ok in Hm as (c2 & H2 & H3).
  pose proof (count_loop_ok _ _ _ _ _ _ H2) as E2. cbn [filter] in E2.
  change (pre ++ mark_cancelled now b :: post)
    with (pre ++ [mark_cancelled now b] ++ post).
  rewrite count_loop_app, H1. cbn [bind].
  rewrite count_loop_app, count_loop_cancelled. cbn [bind].
  apply (count_loop_shift _ _ _ _ _ _ (c1 - c2)) in H3.
  replace (c2 + (c1 - c2)) with c1 in H3 by lia. rewrite H3.
  assert (Ed : m + (c1 - c2)
               = m - (if counted room q_in q_out b then 1 else 0))
    by (destruct (counted room q_in q_out b); cbn [List.length] in E2; lia).
  rewrite Ed. split; [reflexivity |].
  intros a. destruct (dict_get rooms room) as [info |]; [| discriminate].
  change (pre ++ b :: post) with (pre ++ [b] ++ post).
  rewrite count_loop_app, H1. cbn [bind].
  rewrite count_loop_app, H2. cbn [bind].
  apply (count_loop_shift _ _ _ _ _ _ (c2 - c1)) in H3.
  replace (c1 + (c2 - c1)) with c2 in H3 by lia. rewrite H3.
  cbn [bind]. intros H; injection H as <-.
  eexists. split; [reflexivity |].
  destruct (counted room q_in q_out b); lia.
Qed.

Lemma cancellation_frees_the_room_witness :
  exists q_in q_out,
    parse_date "2024-02-03" = Some q_in /\ parse_date "2024-02-05" = Some q_out
    /\ booked_count_for_range
         (fst (cancel_booking "2024-01-20T10:00:00" sample_system "BK0007"))
         "single" "2024-02-03" "2024-02-05"
       = Ok (Some (2 - (if counted "single" q_in q_out
                             (nth 0 sample_ledger
                                (sample_booking "" "" "" "" "" "" ""))
                        then 1 else 0)))
    /\ forall a,
         available_rooms_for_range sample_system "single" "2024-02-03"
           "2024-02-05" = Ok (Some a) ->
         exists a',
           available_rooms_for_range
             (fst (cancel_booking "2024-01-20T10:00:00" sample_system
                     "BK0007"))
             "single" "2024-02-03" "2024-02-05" = Ok (Some a')
           /\ a <= a' <= a + 1.
Proof.
  apply (cancellation_frees_the_room "2024-01-20T10:00:00" sample_system
           "BK0007" (nth 0 sample_ledger (sample_booking "" "" "" "" "" "" ""))
           "single" "2024-02-03" "2024-02-05" 2); reflexivity.
Defined.

(** ** Looking bookings up *)

Lemma find_booking_first (s : System) (id : string) :
  (forall b,
     get_booking s id = Some b ->
     booking_id b = id
     /\ exists pre post,
          bookings s = pre ++ b :: post
          /\ forall x, In x pre -> booking_id x <> id)
  /\ (get_booking s id = None <->
      forall b, In b (bookings s) -> booking_id b <> id).
Proof.
  unfold get_booking. induction (bookings s) as [| x l [IH1 IH2]].
  - split; [discriminate |]. split; [intros _ b [] | reflexivity].
  - cbn [find_booking]. destruct (String.eqb (booking_id x) id) eqn:E.
    + apply String.eqb_eq in E. split.
      * intros b H; injection H as <-. split; [exact E |].
        exists [], l. split; [reflexivity | intros ? []].
      * split; [discriminate |]. intros H.
        exfalso. apply (H x); [now left | exact E].
    + apply String.eqb_neq in E. split.
      * intros b H. destruct (IH1 b H) as (Hid & pre & post & -> & Hpre).
        split; [exact Hid |]. exists (x :: pre), post.
        split; [reflexivity |]. intros y [<- | Hy]; auto.
      * rewrite IH2. split.
        -- intros H b [<- | Hb]; auto.
        -- intros H b Hb. apply H. now right.
Qed.

(** X11.  [get_booking] returns the first booking of the ledger that has
    the id, and NotFound exactly when no booking of the ledger has it. *)
Theorem get_booking_first_match (s : System) (id : string) :
  (forall b,
     get_booking s id = Some b ->
     booking_id b = id
     /\ exists pre post,
          bookings s = pre ++ b :: post
          /\ forall x, In x pre -> booking_id x <> id)
  /\ (get_booking s id = None <->
      forall b, In b (bookings s) -> booking_id b <> id).
Proof. exact (find_booking_first s id). Qed.

Lemma get_booking_first_match_witness :
  booking_id (nth 1 sample_ledger (sample_booking "" "" "" "" "" "" ""))
  = "BK0003"
  /\ exists pre post,
       bookings sample_system
       = pre ++ nth 1 sample_ledger (sample_booking "" "" "" "" "" "" "")
                :: post
       /\ forall x, In x pre -> booking_id x <> "BK0003".
Proof.
  apply (proj1 (get_booking_first_match sample_system "BK0003")).
  reflexivity.
Defined.

Lemma find_booking_app_old (l l' : list Booking) (id : string) (x : Booking) :
  find_booking l id = Some x -> find_booking (l ++ l') id = Some x.
Proof.
  induction l as [| y l IH]; [discriminate |]. cbn [find_booking app].
  destruct (String.eqb (booking_id y) id); auto.
Qed.

Lemma find_booking_app_new (l l' : list Booking) (id : string) :
  find_booking l id = None ->
  find_booking (l ++ l') id = find_booking l' id.
Proof.
  induction l as [| y l IH]; [reflexivity |]. cbn [find_booking app].
  destruct (String.eqb (booking_id y) id); [discriminate | auto].
Qed.

(** X12.  A booking can be looked up once it is made: after
    [create_booking] accepts a request, [get_booking] with the id of the
    new record returns that record, and with any other id it returns what
    it returned before. *)
Theorem created_booking_is_found (now : string) (s s' : System)
    (g e p room ci co : string) (n : Z) (b : Booking) (msg : string) :
  create_booking now s g e p room ci co n = (s', Ok (Some b, msg)) ->
  get_booking s' (booking_id b) = Some b
  /\ forall id, id <> booking_id b -> get_booking s' id = get_booking s id.
Proof.
  intros E.
  destruct (create_booking_accepted _ _ _ _ _ _ _ _ _ _ _ _ E)
    as (info & k & a & _ & _ & _ & _ & _ & Hb & -> & _).
  assert (Hid : booking_id b = generate_booking_id s)
    by (rewrite Hb; reflexivity).
  unfold get_booking, appended, save_bookings. cbn [bookings]. split.
  - rewrite find_booking_app_new.
    + cbn [find_booking]. now rewrite String.eqb_refl.
    + apply (find_booking_first s (booking_id b)).
      intros x Hx. rewrite Hid. now apply generate_booking_id_fresh.
  - intros id Hne.
    destruct (find_booking (bookings s) id) as [x |] eqn:F.
    + now apply find_booking_app_old.
    + rewrite find_booking_app_new by exact F. cbn [find_booking].
      replace (String.eqb (booking_id b) id) with false; [reflexivity |].
      symmetry. apply String.eqb_neq. congruence.
Qed.

Lemma created_booking_is_found_witness :
  get_booking (appended sample_system sample_new) (booking_id sample_new)
  = Some sample_new.
Proof.
  exact (proj1 (created_booking_is_found _ _ _ _ _ _ _ _ _ _ _ _
                  sample_new_accepted)).
Defined.

(** ** Searching *)

Lemma contains_empty (s : string) : Str.contains s EmptyString = true.
Proof. apply contains_iff. exists EmptyString, s. reflexivity. Qed.

Lemma filter_all {A} (f : A -> bool) (l : list A) :
  (forall x, In x l -> f x = true) -> filter f l = l.
Proof.
  induction l as [| x l IH]; intros H; [reflexivity |].
  cbn [filter]. rewrite (H x (or_introl eq_refl)).
  f_equal. apply IH. intros y Hy. apply H. now right.
Qed.

(** X13.  The empty query finds everything: [search_bookings] with the
    empty text returns the whole ledger in its order.  And whatever
    [get_booking] finds is also found by searching for the id. *)
Theorem search_edge_cases (s : System) :
  search_bookings s "" = bookings s
  /\ forall id b, get_booking s id = Some b -> In b (search_bookings s id).
Proof.
  split.
  - unfold search_bookings. rewrite search_loop_filter. cbn [app Str.lower].
    apply filter_all. intros b _. unfold matches_query.
    now rewrite contains_empty.
  - intros id b H.
    destruct (proj1 (find_booking_first s id) b H)
      as (Hid & pre & post & Hbs & _).
    unfold search_bookings. rewrite search_loop_filter. cbn [app].
    apply filter_In. split; [rewrite Hbs; apply in_elt |].
    unfold matches_query. rewrite Hid.
    replace (Str.contains (Str.lower id) (Str.lower id)) with true;
      [now rewrite !orb_true_r |].
    symmetry. apply contains_iff. exists EmptyString, EmptyString.
    cbn [String.append]. clear. induction (Str.lower id); cbn; congruence.
Qed.

Lemma search_edge_cases_witness :
  In (nth 1 sample_ledger (sample_booking "" "" "" "" "" "" ""))
    (search_bookings sample_system "BK0003").
Proof.
  apply (proj2 (search_edge_cases sample_system) "BK0003"). reflexivity.
Defined.

Lemma matches_query_mark_cancelled now q b :
  matches_query q (mark_cancelled now b) = matches_query q b.
Proof. reflexivity. Qed.

(** X14.  Creating and cancelling keep the answers of a search in step
    with the ledger: after an accepted request the results are the old
    results followed by the new booking if it matches the query, and
    after a cancellation they are the bookings with the same ids as
    before, in the same order (a cancelled booking is still found). *)
Theorem search_after_create_and_cancel (s : System) (query : string) :
  (forall now g e p room ci co n s' b msg,
     create_booking now s g e p room ci co n = (s', Ok (Some b, msg)) ->
     search_bookings s' query
     = search_bookings s query
       ++ (if matches_query (Str.lower query) b then [b] else []))
  /\ (forall now id,
        map booking_id (search_bookings (fst (cancel_booking now s id)) query)
        = map booking_id (search_bookings s query)).
Proof.
  split.
  - intros now g e p room ci co n s' b msg E.
    destruct (create_booking_accepted _ _ _ _ _ _ _ _ _ _ _ _ E)
      as (info & k & a & _ & _ & _ & _ & _ & _ & -> & _).
    unfold search_bookings, appended, save_bookings. cbn [bookings].
    rewrite !search_loop_filter, filter_app. cbn [app filter].
    reflexivity.
  - intros now id. unfold search_bookings. rewrite !search_loop_filter.
    cbn [app].
    destruct (cancel_booking_state now s id)
      as [-> | (b & pre & post & Hbs & ->)]; [reflexivity |].
    cbn [save_bookings bookings]. rewrite Hbs, !filter_app. cbn [filter].
    rewrite matches_query_mark_cancelled.
    destruct (matches_query (Str.lower query) b);
      rewrite !map_app; reflexivity.
Qed.

Lemma search_after_create_and_cancel_witness :
  search_bookings (appended sample_system sample_new) "ANN"
  = search_bookings sample_system "ANN"
    ++ (if matches_query (Str.lower "ANN") sample_new
        then [sample_new] else []).
Proof.
  exact (proj1 (search_after_create_and_cancel sample_system "ANN")
           _ _ _ _ _ _ _ _ _ _ _ sample_new_accepted).
Defined.

(** ** When a request is accepted *)



(** ** The states the program reaches *)

(** What is on file: nothing while the ledger is still empty and nothing
    was saved, and otherwise the ledger as it is now. *)
Lemma reachable_file (s : System) :
  reachable s ->
  match file s with
  | [] => bookings s = []
  | latest :: _ => latest = bookings s
  end.
Proof.
  induction 1 as [| now s g e p room ci co n _ IH | now s id _ IH].
  - reflexivity.
  - destruct (create_booking_state now s g e p room ci co n)
      as [-> | (b & msg & _ & ->)]; [exact IH | reflexivity].
  - destruct (cancel_booking_state now s id)
      as [-> | (b & pre & post & _ & ->)]; [exact IH | reflexivity].
Qed.

(** X16.  Started without a file, the program stays sound: in every
    state it reaches, every booking has the fields the data model asks
    for, no room type is oversold on any night, the ids are distinct,
    the file holds the ledger as it is (or nothing, while the ledger is
    empty), and no call of [booked_count_for_range],
    [available_rooms_for_range] or [create_booking] raises. *)
Theorem reachable_states_are_sound (s : System) :
  reachable s ->
  Forall booking_ok (bookings s)
  /\ never_oversold (bookings s)
  /\ NoDup (map booking_id (bookings s))
  /\ match file s with
     | [] => bookings s = []
     | latest :: _ => latest = bookings s
     end
  /\ forall room ci co,
       (exists r, booked_count_for_range s room ci co = Ok r)
       /\ (exists r, available_rooms_for_range s room ci co = Ok r)
       /\ forall now g e p n,
            exists o msg,
              snd (create_booking now s g e p room ci co n) = Ok (o, msg).
Proof.
  intros H.
  assert (Hok : Forall booking_ok (bookings s)).
  { induction H as [| now s g e p room ci co n _ IH | now s id _ IH].
    - constructor.
    - now apply booking_ok_step.
    - now apply booking_ok_step. }
  split; [exact Hok |]. split.
  { clear Hok.
    induction H as [| now s g e p room ci co n _ IH | now s id _ IH].
    - apply never_oversold_empty.
    - now apply never_oversold_step.
    - now apply never_oversold_step. }
  split.
  { clear Hok.
    induction H as [| now s g e p room ci co n _ IH | now s id _ IH].
    - constructor.
    - now apply ids_unique_step.
    - now apply ids_unique_step. }
  split; [now apply reachable_file |].
  apply no_exception_wf.
  unfold well_formed. eapply Forall_impl; [| exact Hok].
  intros b (info & d_in & d_out & _ & E1 & E2 & _).
  unfold stored_dates. rewrite E1, E2. split; discriminate.
Qed.

Lemma reachable_states_are_sound_witness :
  never_oversold (bookings full_house)
  /\ NoDup (map booking_id (bookings full_house)).
Proof.
  destruct (reachable_states_are_sound full_house
              (reachable_create_many 10)) as (_ & H1 & H2 & _).
  split; assumption.
Defined.

(** ** From day numbers back to dates *)

Lemma forallb_zrange (f : Z -> bool) (lo : Z) (k : nat) (n : Z) :
  forallb f (zrange lo k) = true -> lo <= n < lo + Z.of_nat k -> f n = true.
Proof.
  intros H Hn. rewrite forallb_forall in H. apply H. now apply zrange_in.
Qed.

Lemma month_and_day_spec (leapyear : bool) (n : Z) :
  0 <= n < 365 + (if leapyear then 1 else 0) ->
  month_and_day_ok leapyear n = true.
Proof.
  intros H. destruct leapyear.
  - apply (forallb_zrange (month_and_day_ok true) 0 366);
      [vm_compute; reflexivity | lia].
  - apply (forallb_zrange (month_and_day_ok false) 0 365);
      [vm_compute; reflexivity | lia].
Qed.

Lemma days_in_month_leap (y y' m : Z) :
  Date.is_leap y = Date.is_leap y' ->
  Date.days_in_month y m = Date.days_in_month y' m
  /\ Date.days_before_month y m = Date.days_before_month y' m.
Proof.
  intros H. unfold Date.days_in_month, Date.days_before_month.
  now rewrite H.
Qed.

(** The year [_ord2ymd] finds: the day number splits into the days
    before the year and an offset inside the year. *)
Lemma ord2ymd_year (n : Z) :
  1 <= n ->
  let r400 := (n - 1) mod 146097 in
  let n100 := r400 / 36524 in
  let r100 := r400 mod 36524 in
  let n4 := r100 / 1461 in
  let r4 := r100 mod 1461 in
  let n1 := r4 / 365 in
  let n0 := r4 mod 365 in
  let year := (n - 1) / 146097 * 400 + 1 + (n100 * 100 + n4 * 4 + n1) in
  if (n1 =? 4) || (n100 =? 4)
  then Date.is_leap (year - 1) = true
       /\ n = Date.days_before_year (year - 1) + 366
       /\ 1 <= year - 1
  else Date.is_leap year = ((n1 =? 3) && (negb (n4 =? 24) || (n100 =? 3)))
       /\ n = Date.days_before_year year + n0 + 1
       /\ 0 <= n0 < 365 + (if Date.is_leap year then 1 else 0)
       /\ 1 <= year.
Proof.
  intros Hn. cbv zeta.
  unfold Date.is_leap, Date.days_before_year. cbv zeta.
  destruct (_ =? 4) eqn:E1; destruct (_ =? 4) eqn:E100 in |- *;
    cbn [orb];
    repeat match goal with
           | |- context [?a =? ?b] =>
               destruct (Z.eqb_spec a b)
           end; cbn [andb orb negb];
    rewrite ?Z.eqb_eq, ?Z.eqb_neq in *;
    repeat split; try discriminate;
    Z.to_euclidean_division_equations; lia.
Qed.

Lemma year_upper (y k : Z) :
  1 <= k -> Date.days_before_year y + k <= Ordinal.MAXORDINAL -> y <= 9999.
Proof.
  unfold Date.days_before_year, Ordinal.MAXORDINAL. cbv zeta. intros Hk H.
  Z.to_euclidean_division_equations; lia.
Qed.

(** Every day number of the calendar is the day number of the date
    [_ord2ymd] makes of it, and that date is a real one. *)
Lemma ord2ymd_toordinal (n : Z) :
  1 <= n <= Ordinal.MAXORDINAL ->
  real_date (Ordinal.ord2ymd n)
  /\ Date.toordinal (Ordinal.ord2ymd n) = n.
Proof.
  intros [Hlo Hhi]. pose proof (ord2ymd_year n Hlo) as H. cbv zeta in H.
  unfold Ordinal.ord2ymd. cbv zeta.
  change Ordinal.DI400Y with 146097. change Ordinal.DI100Y with 36524.
  change Ordinal.DI4Y with 1461.
  set (r400 := (n - 1) mod 146097) in *.
  set (n100 := r400 / 36524) in *.
  set (r100 := r400 mod 36524) in *.
  set (n4 := r100 / 1461) in *.
  set (r4 := r100 mod 1461) in *.
  set (n1 := r4 / 365) in *.
  set (n0 := r4 mod 365) in *.
  set (Y := (n - 1) / 146097 * 400 + 1 + (n100 * 100 + n4 * 4 + n1)) in *.
  clearbody Y n0 n1 n4 n100. clear r4 r100 r400.
  destruct ((n1 =? 4) || (n100 =? 4)).
  - destruct H as (Hleap & Hn & Hy).
    pose proof (year_upper (Y - 1) 366 ltac:(lia) ltac:(lia)).
    unfold real_date, Date.toordinal. cbn [year month day].
    split.
    + apply check_fields_spec. unfold Date.days_in_month.
      rewrite Hleap. month_tables. lia.
    + unfold Date.days_before_month. rewrite Hleap. month_tables. lia.
  - destruct H as (Hleap & Hn & Hn0 & Hy).
    rewrite <- Hleap.
    pose proof (month_and_day_spec (Date.is_leap Y) n0 Hn0) as Hmd.
    unfold month_and_day_ok in Hmd.
    destruct (Ordinal.month_and_day (Date.is_leap Y) n0) as [m d].
    set (y' := if Date.is_leap Y then 4 else 1) in Hmd.
    assert (Hl : Date.is_leap Y = Date.is_leap y')
      by (subst y'; destruct (Date.is_leap Y); reflexivity).
    destruct (days_in_month_leap Y y' m Hl) as [E1 E2].
    rewrite <- E1, <- E2 in Hmd.
    repeat (apply andb_true_iff in Hmd as [Hmd ?]).
    repeat match goal with
           | E : (_ <=? _) = true |- _ => apply Z.leb_le in E
           | E : (_ =? _) = true |- _ => apply Z.eqb_eq in E
           end.
    pose proof (year_upper Y (n0 + 1) ltac:(lia) ltac:(lia)).
    unfold real_date, Date.toordinal. cbn [year month day].
    split; [apply check_fields_spec |]; lia.
Qed.

Lemma toordinal_bounds (d : date) :
  real_date d -> 1 <= Date.toordinal d <= Ordinal.MAXORDINAL.
Proof.
  destruct d as [y m dd]. unfold real_date, Date.toordinal.
  cbn [year month day]. rewrite check_fields_spec. intros (Hy & Hm & Hd).
  pose proof (day_of_year_bounds y m dd Hm Hd) as Hb.
  assert (Hup : Date.days_before_year y + 365
                + (if Date.is_leap y then 1 else 0)
                <= Ordinal.MAXORDINAL).
  { rewrite <- days_before_year_succ.
    unfold Date.days_before_year, Ordinal.MAXORDINAL. cbv zeta.
    Z.to_euclidean_division_equations; lia. }
  assert (Hlo : 0 <= Date.days_before_year y).
  { unfold Date.days_before_year. cbv zeta.
    Z.to_euclidean_division_equations; lia. }
  lia.
Qed.

Lemma toordinal_inj (a b : date) :
  real_date a -> real_date b -> Date.toordinal a = Date.toordinal b -> a = b.
Proof.
  intros Ha Hb E. destruct (ltb_total a b) as [H | [H | H]]; auto.
  - apply (toordinal_lt a b Ha Hb) in H. lia.
  - apply (toordinal_lt b a Hb Ha) in H. lia.
Qed.

Lemma str_digits_all_digit (fuel : nat) :
  forall n acc,
    all_digit acc = true -> all_digit (PyInt.str_digits fuel n acc) = true.
Proof.
  induction fuel as [| f IH]; intros n acc H; [exact H |].
  cbn [PyInt.str_digits].
  assert (Hm : 0 <= n mod 10 < 10) by (apply Z.mod_pos_bound; lia).
  destruct (digit_char_spec _ Hm) as [Hd _].
  assert (H' : all_digit (String (Char.digit_char (n mod 10)) acc) = true)
    by (cbn [all_digit]; now rewrite Hd).
  destruct (n / 10 =? 0); [exact H' | now apply IH].
Qed.

Lemma pad_all_digit (w : nat) (n : Z) : all_digit (Ordinal.pad w n) = true.
Proof.
  unfold Ordinal.pad, Str.zfill.
  induction (w - String.length (PyInt.str_nonneg n))%nat as [| k IH].
  - apply str_digits_all_digit. reflexivity.
  - exact IH.
Qed.

(** Four digits that read as [n] are the four digits of [n]. *)
Lemma pad4_four_digits (n : Z) :
  0 <= n <= 9999 -> Ordinal.pad 4 n = four_digits n.
Proof.
  intros H.
  assert (E : Ordinal.pad 4 n = PyInt.format_04d n).
  { unfold PyInt.format_04d, Ordinal.pad.
    destruct (n <? 0) eqn:En; [apply Z.ltb_lt in En; lia | reflexivity]. }
  pose proof (pad_all_digit 4 n) as Hd.
  pose proof (int_format_04d n ltac:(lia)) as Hi.
  destruct (format_04d_length n ltac:(lia)) as [_ Hl].
  specialize (Hl ltac:(lia)). rewrite <- E in Hi, Hl.
  destruct (Ordinal.pad 4 n) as [| a [| b [| c [| d [| x r]]]]];
    try discriminate Hl.
  cbn [all_digit] in Hd.
  repeat (apply andb_true_iff in Hd as [? Hd]).
  rewrite int_four in Hi by assumption. injection Hi as <-.
  symmetry. now apply four_digits_value.
Qed.

(** The date texts [isoformat] writes are the strict literals. *)
Lemma isoformat_iso_text (d : date) :
  real_date d -> Ordinal.isoformat d = iso_text d.
Proof.
  intros H. destruct (check_fields_ranges _ _ _ H) as (Hy & Hm & Hd).
  unfold Ordinal.isoformat, iso_text.
  assert (E2 : forall n, 1 <= n <= 31 -> Ordinal.pad 2 n = two_digits n).
  { intros n Hn. apply String.eqb_eq.
    apply (forallb_zrange pad2_ok 1 31); [vm_compute; reflexivity | lia]. }
  now rewrite pad4_four_digits, !E2 by lia.
Qed.

Lemma parse_isoformat (d : date) :
  real_date d -> parse_date (Ordinal.isoformat d) = Some d.
Proof.
  intros H. rewrite isoformat_iso_text by exact H.
  apply parse_date_complete; [exact H | apply iso_text_spelling].
Qed.

(** The day after: a real date with the next day number, unless the
    calendar ends. *)
Lemma add_one_day (d : date) :
  real_date d ->
  if Date.toordinal d <? Ordinal.MAXORDINAL
  then exists t, Ordinal.add_days d 1 = Some t /\ real_date t
                 /\ Date.toordinal t = Date.toordinal d + 1
  else Ordinal.add_days d 1 = None.
Proof.
  intros H. pose proof (toordinal_bounds d H) as Hb.
  unfold Ordinal.add_days. cbv zeta.
  destruct (Date.toordinal d <? Ordinal.MAXORDINAL) eqn:E.
  - apply Z.ltb_lt in E.
    replace ((0 <? Date.toordinal d + 1)
             && (Date.toordinal d + 1 <=? Ordinal.MAXORDINAL)) with true
      by (symmetry; apply andb_true_iff; split;
          [apply Z.ltb_lt | apply Z.leb_le]; lia).
    destruct (ord2ymd_toordinal (Date.toordinal d + 1) ltac:(lia))
      as [Hr Ho].
    eauto.
  - apply Z.ltb_ge in E.
    replace (Date.toordinal d + 1 <=? Ordinal.MAXORDINAL) with false
      by (symmetry; apply Z.leb_gt; lia).
    now rewrite andb_false_r.
Qed.

(** Tonight's query counts the bookings that occupy tonight. *)
Lemma counted_tonight (room : string) (today tomorrow : date) (b : Booking) :
  real_date today -> real_date tomorrow ->
  Date.toordinal tomorrow = Date.toordinal today + 1 ->
  counted room today tomorrow b = occupies room today b.
Proof.
  intros Ht Hm Ho. unfold counted, occupies, overlaps, within.
  destruct (String.eqb (room_type b) room); [| reflexivity].
  destruct (String.eqb (status b) "confirmed"); [| reflexivity].
  destruct (parse_date (check_in b)) as [b_in |] eqn:Ei; [| reflexivity].
  destruct (parse_date (check_out b)) as [b_out |]; [| reflexivity].
  apply parse_date_real in Ei.
  rewrite (ltb_toordinal b_in tomorrow Ei Hm),
    (ltb_toordinal today b_in Ht Ei), Ho.
  cbn [andb]. f_equal.
  destruct (Z.ltb_spec (Date.toordinal b_in) (Date.toordinal today + 1)),
    (Z.ltb_spec (Date.toordinal today) (Date.toordinal b_in));
    cbn; auto; lia.
Qed.

Lemma available_value (s : System) (room ci co : string) (info : RoomInfo)
    (q_in q_out : date) :
  dict_get rooms room = Some info ->
  parse_date ci = Some q_in -> parse_date co = Some q_out ->
  dated room (bookings s) ->
  available_rooms_for_range s room ci co
  = Ok (Some (Z.max 0
                (total info
                 - Z.of_nat (List.length
                               (filter (counted room q_in q_out)
                                  (bookings s)))))).
Proof.
  intros Hi Hci Hco Hd.
  unfold available_rooms_for_range, booked_count_for_range.
  rewrite Hi, Hci, Hco, count_loop_filter by exact Hd. reflexivity.
Qed.

Lemma filter_ext_in_length {A} (f g : A -> bool) (l : list A) :
  (forall x, f x = g x) ->
  List.length (filter f l) = List.length (filter g l).
Proof. intros H. now rewrite (filter_ext f g H). Qed.

Lemma get_available_rooms_spec (now1 now2 : date) (s : System) :
  real_date now1 -> real_date now2 -> well_formed (bookings s) ->
  if Date.toordinal now2 <? Ordinal.MAXORDINAL
  then exists t,
         real_date t /\ Date.toordinal t = Date.toordinal now2 + 1
         /\ get_available_rooms now1 now2 s
            = Availability
                (map (fun kv =>
                        (fst kv,
                         Some (Z.max 0
                                 (total (snd kv)
                                  - Z.of_nat
                                      (List.length
                                         (filter (counted (fst kv) now1 t)
                                            (bookings s)))))))
                   rooms)
         /\ (now1 = now2 ->
             get_available_rooms now1 now2 s
             = Availability
                 (map (fun kv =>
                         (fst kv,
                          Some (Z.max 0
                                  (total (snd kv)
                                   - occupancy (fst kv) now1 (bookings s)))))
                    rooms))
  else get_available_rooms now1 now2 s = Overflow.
Proof.
  intros H1 H2 Hw. pose proof (add_one_day now2 H2) as Ha.
  unfold get_available_rooms. cbv zeta.
  destruct (Date.toordinal now2 <? Ordinal.MAXORDINAL).
  2: { now rewrite Ha. }
  destruct Ha as (t & -> & Ht & Ho). exists t.
  split; [exact Ht |]. split; [exact Ho |].
  assert (E : forall room info,
             dict_get rooms room = Some info ->
             available_rooms_for_range s room (Ordinal.isoformat now1)
               (Ordinal.isoformat t)
             = Ok (Some (Z.max 0
                           (total info
                            - Z.of_nat
                                (List.length
                                   (filter (counted room now1 t)
                                      (bookings s))))))).
  { intros room info Hi.
    apply available_value; auto using parse_isoformat, well_formed_dated. }
  assert (G : availability_loop s (Ordinal.isoformat now1)
                (Ordinal.isoformat t) (map fst rooms) []
              = Availability
                  (map (fun kv =>
                          (fst kv,
                           Some (Z.max 0
                                   (total (snd kv)
                                    - Z.of_nat
                                        (List.length
                                           (filter (counted (fst kv) now1 t)
                                              (bookings s)))))))
                     rooms)).
  { unfold rooms. cbn [map fst snd availability_loop].
    rewrite (E "single" (mkRoom 2000 10) eq_refl).
    rewrite (E "double" (mkRoom 2500 8) eq_refl).
    rewrite (E "suite" (mkRoom 3000 5) eq_refl).
    reflexivity. }
  split; [exact G |].
  intros <-. rewrite G. f_equal. apply map_ext. intros [room info].
  cbn [fst snd]. unfold occupancy.
  rewrite (filter_ext_in_length (counted room now1 t) (occupies room now1));
    [reflexivity | intros b; now apply counted_tonight].
Qed.

(** X17.  [get_available_rooms] on a ledger whose bookings store dates:
    when the second reading of the clock is the last day of the calendar,
    9999-12-31, it raises [OverflowError]; otherwise it returns, for
    "single", "double" and "suite" in this order, the rooms of the type
    minus the confirmed bookings that overlap the time from the first
    reading to the day after the second, and never less than 0.  When
    both readings fall on the same day, that is the number of rooms minus
    the bookings that occupy a room tonight. *)
Theorem get_available_rooms_tonight (now1 now2 : date) (s : System) :
  real_date now1 -> real_date now2 -> well_formed (bookings s) ->
  (now2 = mkdate 9999 12 31 -> get_available_rooms now1 now2 s = Overflow)
  /\ (now2 <> mkdate 9999 12 31 ->
      exists t,
        real_date t /\ Date.toordinal t = Date.toordinal now2 + 1
        /\ get_available_rooms now1 now2 s
           = Availability
               (map (fun kv =>
                       (fst kv,
                        Some (Z.max 0
                                (total (snd kv)
                                 - Z.of_nat
                                     (List.length
                                        (filter (counted (fst kv) now1 t)
                                           (bookings s)))))))
                  rooms)
        /\ (now1 = now2 ->
            get_available_rooms now1 now2 s
            = Availability
                (map (fun kv =>
                        (fst kv,
                         Some (Z.max 0
                                 (total (snd kv)
                                  - occupancy (fst kv) now1 (bookings s)))))
                   rooms))).
Proof.
  intros H1 H2 Hw.
  pose proof (get_available_rooms_spec now1 now2 s H1 H2 Hw) as H.
  pose proof (toordinal_bounds now2 H2) as Hb.
  split.
  - intros ->. exact H.
  - intros Hne.
    destruct (Date.toordinal now2 <? Ordinal.MAXORDINAL) eqn:E; [exact H |].
    exfalso. apply Hne. apply Z.ltb_ge in E.
    apply toordinal_inj; [exact H2 | reflexivity |].
    change (Date.toordinal (mkdate 9999 12 31)) with Ordinal.MAXORDINAL. lia.
Qed.

(** The night of 2024-02-04 on the sample ledger, and the last day of
    the calendar. *)
Lemma get_available_rooms_tonight_witness :
  get_available_rooms (mkdate 9999 12 31) (mkdate 9999 12 31) sample_system
  = Overflow
  /\ get_available_rooms (mkdate 2024 2 4) (mkdate 2024 2 4) sample_system
     = Availability
         (map (fun kv =>
                 (fst kv,
                  Some (Z.max 0
                          (total (snd kv)
                           - occupancy (fst kv) (mkdate 2024 2 4)
                               (bookings sample_system)))))
            rooms)
  /\ get_available_rooms (mkdate 2024 2 4) (mkdate 2024 2 4) sample_system
     = Availability [("single", Some 8); ("double", Some 8); ("suite", Some 5)].
Proof.
  assert (Hw : well_formed (bookings sample_system))
    by (repeat constructor; discriminate).
  split; [| split].
  - apply (get_available_rooms_tonight (mkdate 9999 12 31)
             (mkdate 9999 12 31) sample_system eq_refl eq_refl Hw).
    reflexivity.
  - destruct (get_available_rooms_tonight (mkdate 2024 2 4) (mkdate 2024 2 4)
                sample_system eq_refl eq_refl Hw) as [_ H].
    destruct (H ltac:(discriminate)) as (t & _ & _ & _ & Ht).
    now apply Ht.
  - vm_compute. reflexivity.
Defined.

(** ** A stored text that is no date *)

Lemma count_loop_raises (room : string) (q_in q_out : date)
    (bs : list Booking) (b : Booking) :
  In b bs -> room_type b = room -> status b = "confirmed" ->
  parse_date (check_out b) = None ->
  forall count, count_loop room q_in q_out bs count = Raise TypeError.
Proof.
  intros Hin Hr Hs Ho. induction bs as [| x bs IH]; [destruct Hin |].
  intros count. cbn [count_loop]. destruct Hin as [-> | Hin].
  - rewrite Hr, Hs, Ho, String.eqb_refl.
    cbn [negb String.eqb Ascii.eqb Bool.eqb].
    unfold dates_overlap, py_lt. now destruct (parse_date (check_in b)).
  - destruct (negb (String.eqb (room_type x) room)); [now apply IH |].
    destruct (negb (String.eqb (status x) "confirmed")); [now apply IH |].
    destruct (dates_overlap _ _ _ _) as [ov | []]; cbn [bind];
      [now apply IH | reflexivity].
Qed.

(** X18.  One confirmed booking whose stored check-out text is no date
    (a ledger loaded from a damaged file) makes every availability
    question about its room type fail: for every pair of query dates that
    parse, [booked_count_for_range] and [available_rooms_for_range] raise
    [TypeError], and so does [create_booking] for every stay of at least
    one night, leaving the ledger and the file as they were. *)
Theorem unparsable_check_out_raises (s : System) (b : Booking)
    (ci co : string) (q_in q_out : date) :
  In b (bookings s) -> status b = "confirmed" ->
  dict_mem rooms (room_type b) = true ->
  parse_date (check_out b) = None ->
  parse_date ci = Some q_in -> parse_date co = Some q_out ->
  booked_count_for_range s (room_type b) ci co = Raise TypeError
  /\ available_rooms_for_range s (room_type b) ci co = Raise TypeError
  /\ (Date.lt q_in q_out ->
      forall now g e p n,
        create_booking now s g e p (room_type b) ci co n
        = (s, Raise TypeError)).
Proof.
  intros Hin Hs Hk Ho Hci Hco.
  assert (Hb : booked_count_for_range s (room_type b) ci co
               = Raise TypeError).
  { unfold booked_count_for_range.
    rewrite Hci, Hco, (count_loop_raises _ _ _ _ b Hin eq_refl Hs Ho).
    reflexivity. }
  apply dict_mem_get in Hk as [info Hi].
  assert (Ha : available_rooms_for_range s (room_type b) ci co
               = Raise TypeError).
  { unfold available_rooms_for_range. now rewrite Hi, Hb. }
  split; [exact Hb |]. split; [exact Ha |].
  intros Hlt now g e p n.
  assert (Hn : calculate_nights ci co = Some (Date.sub_days q_out q_in))
    by (unfold calculate_nights; now rewrite Hci, Hco).
  destruct (nights_order ci co _ Hn) as (x & y & Hx & Hy & Hpos & _).
  rewrite Hci in Hx. injection Hx as <-.
  rewrite Hco in Hy. injection Hy as <-.
  apply Hpos in Hlt.
  unfold create_booking. rewrite Hi, Hn, Ha.
  replace (Date.sub_days q_out q_in <=? 0) with false
    by (symmetry; apply Z.leb_gt; exact Hlt).
  reflexivity.
Qed.

Lemma unparsable_check_out_raises_witness :
  booked_count_for_range
    (mkSystem [sample_booking "BK0001" "Zed" "zed@example.com" "single"
                 "2024-02-01" "soon" "confirmed"] [])
    "single" "2024-06-01" "2024-06-02" = Raise TypeError.
Proof.
  apply (unparsable_check_out_raises
           (mkSystem [sample_booking "BK0001" "Zed" "zed@example.com"
                        "single" "2024-02-01" "soon" "confirmed"] [])
           (sample_booking "BK0001" "Zed" "zed@example.com" "single"
              "2024-02-01" "soon" "confirmed")
           "2024-06-01" "2024-06-02" (mkdate 2024 6 1) (mkdate 2024 6 2));
    try reflexivity.
  now left.
Defined.
